(** * CareTwin Keycloak integration: token verification and key caching

    A shallow embedding of [examples/python-api/keycloak_auth.py]:
    the JWKS key cache ([KeycloakAuth._load_public_keys]), the token
    verifier ([KeycloakAuth.verify_token]) and the two FastAPI
    dependencies ([get_current_user], [require_role]).

    Python objects are modelled as follows.
    - a [dict] is a [gmap]; [d.get(k)] and [k in d] are lookups;
    - [self._public_keys] is [option (gmap ..)]: it is [None] until the
      first refresh;
    - exceptions are the [Raise] results of a state-and-error monad whose
      state survives a raise, as an attribute assignment survives one;
    - the [jwt] package (PyJWT) and the HTTP endpoint reached through
      [requests] are not part of the repository: they are parameters. *)

From Stdlib Require Import ZArith.
From stdpp Require Import gmap strings list fin_maps.

#[local] Set Warnings "-register-all".
#[local] Open Scope Z_scope.

(** ** Python values and exceptions *)

(** JSON-shaped values, as found in a decoded token payload. *)
Inductive pyval :=
| PNone
| PBool (b : bool)
| PInt (z : Z)
| PStr (s : string)
| PList (l : list pyval)
| PDict (d : gmap string pyval).

(** A decoded payload: [Dict[str, Any]]. *)
Abbreviation claims := (gmap string pyval).

(** The decoded JOSE header.  PyJWT rejects a header whose [kid] is not a
    string, so [header.get('kid')] is a [str] or [None]. *)
Abbreviation header := (gmap string string).

(** A key of [self._public_keys]: a [str], or Python's [None]. *)
Abbreviation pykey := (option string).

Inductive exn :=
| ConnectionError                       (* requests.get failed *)
| HTTPError (status : Z)                (* response.raise_for_status() *)
| JSONDecodeError                       (* response.json() *)
| KeyError (key : string)               (* d[key] on a missing key *)
| TypeError
| AttributeError
| InvalidKeyError                       (* jwt: not an InvalidTokenError *)
| InvalidTokenError                     (* jwt: the class caught by verify_token *)
| HTTPException (status_code : Z) (detail : string)
                (headers : option (list (string * string))).

Inductive result (A : Type) :=
| Ok (a : A)
| Raise (e : exn).
Arguments Ok {A} a.
Arguments Raise {A} e.

(** [x == required_role] for a [str] on the right. *)
Definition py_eq_str (r : string) (v : pyval) : bool :=
  match v with
  | PStr s => String.eqb s r
  | _ => false
  end.

(** [r in s] for two [str]: substring test. *)
Definition str_contains (r s : string) : bool :=
  match String.index 0 r s with
  | Some _ => true
  | None => false
  end.

(** [required_role in v]; a non-container raises [TypeError]. *)
Definition py_in_str (r : string) (v : pyval) : result bool :=
  match v with
  | PList l => Ok (existsb (py_eq_str r) l)
  | PDict d => Ok (bool_decide (is_Some (d !! r)))
  | PStr s => Ok (str_contains r s)
  | PNone | PBool _ | PInt _ => Raise TypeError
  end.

(** [v.get(k, default)]; only a [dict] has a [get] method. *)
Definition py_get (v : pyval) (k : string) (dflt : pyval) : result pyval :=
  match v with
  | PDict d => Ok (default dflt (d !! k))
  | _ => Raise AttributeError
  end.

(** ** The registered claims that [jwt.decode] validates *)

(** [aud] is the audience itself or a list that contains it. *)
Definition audience_contains (payload : claims) (audience : string) : bool :=
  match payload !! "aud"%string with
  | Some (PStr s) => String.eqb s audience
  | Some (PList l) => existsb (py_eq_str audience) l
  | _ => false
  end.

Definition issuer_is (payload : claims) (issuer : string) : bool :=
  match payload !! "iss"%string with
  | Some (PStr s) => String.eqb s issuer
  | _ => false
  end.

(** *** The expiry check

    [verify_token] passes neither a [require] option nor a leeway, so
    PyJWT looks at [exp] only when the payload has one, and then compares
    [int(payload['exp'])] with the clock. *)

Definition digit (a : Ascii.ascii) : option Z :=
  let n := Z.of_nat (Ascii.nat_of_ascii a) in
  if (48 <=? n) && (n <=? 57) then Some (n - 48) else None.

(** The characters below 128 that [str.isspace] holds of. *)
Definition is_space (a : Ascii.ascii) : bool :=
  let n := Z.of_nat (Ascii.nat_of_ascii a) in
  ((9 <=? n) && (n <=? 13)) || ((28 <=? n) && (n <=? 32)).

Fixpoint lstrip (s : string) : string :=
  match s with
  | EmptyString => EmptyString
  | String a s' => if is_space a then lstrip s' else s
  end.

Fixpoint rstrip (s : string) : string :=
  match s with
  | EmptyString => EmptyString
  | String a s' =>
      match rstrip s' with
      | EmptyString => if is_space a then EmptyString else String a EmptyString
      | r => String a r
      end
  end.

(** Decimal digits, a single underscore allowed between two of them;
    [after_digit] tells whether the character before was a digit. *)
Fixpoint digits (s : string) (acc : Z) (after_digit : bool) : option Z :=
  match s with
  | EmptyString => if after_digit then Some acc else None
  | String a s' =>
      match digit a with
      | Some d => digits s' (10 * acc + d) true
      | None =>
          if (Z.of_nat (Ascii.nat_of_ascii a) =? 95 (* '_' *)) && after_digit
          then digits s' acc false
          else None
      end
  end.

(** [int(s)] on a string of characters below 128: blanks around the
    number are dropped, then an optional sign and decimal digits with
    single underscores between them; [None] is Python's [ValueError].
    Digits and blanks of other scripts are outside the strings of this
    model. *)
Definition int_of_str (s : string) : option Z :=
  match rstrip (lstrip s) with
  | EmptyString => None
  | String a s' as t =>
      let c := Z.of_nat (Ascii.nat_of_ascii a) in
      if c =? 45 (* '-' *) then Z.opp <$> digits s' 0 false
      else if c =? 43 (* '+' *) then digits s' 0 false
      else digits t 0 false
  end.

(** What the expiry check reads: [Ok None] without [exp], [Ok (Some e)]
    when [int(payload['exp'])] is [e]; a [ValueError] of [int] becomes
    PyJWT's [DecodeError], an [InvalidTokenError], and its [TypeError]
    (for [None], a list or an object) is not caught. *)
Definition exp_claim (payload : claims) : result (option Z) :=
  match payload !! "exp"%string with
  | None => Ok None
  | Some (PInt e) => Ok (Some e)
  | Some (PBool b) => Ok (Some (Z.b2z b))
  | Some (PStr s) =>
      match int_of_str s with
      | Some e => Ok (Some e)
      | None => Raise InvalidTokenError
      end
  | Some (PNone | PList _ | PDict _) => Raise TypeError
  end.

(** The payload has an [exp] and it is not later than [now]. *)
Definition expired (payload : claims) (now : Z) : bool :=
  match exp_claim payload with
  | Ok (Some e) => e <=? now
  | _ => false
  end.

(** ** The certificate endpoint *)

Section Keycloak.

Context {PublicKey : Type}.

(** One element of [jwks['keys']].  [jwk_kid] is [None] when the object has
    no ['kid'] member (a JSON [null] is [Some None]); [jwk_rsa] is the value
    of [RSAAlgorithm.from_jwk(key)], [None] when that raises. *)
Record jwk := {
  jwk_kid : option pykey;
  jwk_rsa : option PublicKey
}.

(** The document returned by [response.json()]; [jwks_keys] is [None] when
    it has no ['keys'] member. *)
Record jwks_document := { jwks_keys : option (list jwk) }.

(** [body] is [None] when the body is not JSON. *)
Record response := {
  status : Z;
  body : option jwks_document
}.

(** The statuses for which [raise_for_status] raises: 4xx and 5xx. *)
Definition is_error_status (status : Z) : bool :=
  (400 <=? status) && (status <? 600).

Inductive http_outcome :=
| ConnectionFailed
| Responded (r : response).

(** ** The client object and the monad *)

Record KeycloakAuth := {
  client_id : string;
  base_url : string;
  certs_url : string;
  _public_keys : option (gmap pykey PublicKey)
}.

(** The module-level [keycloak_auth] object, the wall clock read by
    [jwt.decode], and the number of GET requests sent so far. *)
Record world := {
  keycloak_auth : KeycloakAuth;
  clock : Z;
  requests_sent : nat
}.

Definition with_public_keys (d : gmap pykey PublicKey) (w : world) : world :=
  let a := keycloak_auth w in
  {| keycloak_auth :=
       {| client_id := client_id a; base_url := base_url a;
          certs_url := certs_url a; _public_keys := Some d |};
     clock := clock w; requests_sent := requests_sent w |}.

Definition one_more_request (w : world) : world :=
  {| keycloak_auth := keycloak_auth w; clock := clock w;
     requests_sent := S (requests_sent w) |}.

Definition M (A : Type) : Type := world -> result A * world.

Definition ret {A} (a : A) : M A := fun w => (Ok a, w).

Definition raise {A} (e : exn) : M A := fun w => (Raise e, w).

Definition bind {A B} (m : M A) (k : A -> M B) : M B :=
  fun w =>
    match m w with
    | (Ok a, w') => k a w'
    | (Raise e, w') => (Raise e, w')
    end.

Definition lift {A} (r : result A) : M A := fun w => (r, w).

#[local] Notation "x <- m ;; k" := (bind m (fun x => k))
  (at level 100, m at next level, right associativity).
#[local] Notation "m ;;; k" := (bind m (fun _ => k))
  (at level 100, right associativity).

(** *** Parameters: PyJWT and the network *)

(** [jwt.get_unverified_header(token)]. *)
Variable jwt_get_unverified_header : string -> result header.

(** [jwt.decode(token, key, algorithms=.., audience=.., issuer=..)],
    evaluated when the clock reads [now]. *)
Variable jwt_decode :
  string -> PublicKey -> list string -> string -> string -> Z -> result claims.

(** [requests.get(url)]: the outcome of the [n]-th request sent. *)
Variable requests_get : string -> nat -> http_outcome.

(** *** Attribute access *)

Definition self : M KeycloakAuth := fun w => (Ok (keycloak_auth w), w).

Definition now : M Z := fun w => (Ok (clock w), w).

(** [self._public_keys = d] *)
Definition set_public_keys (d : gmap pykey PublicKey) : M unit :=
  fun w => (Ok tt, with_public_keys d w).

(** [self._public_keys[kid] = key]: an in-place update of the dict. *)
Definition setitem_public_keys (kid : pykey) (key : PublicKey) : M unit :=
  fun w =>
    match _public_keys (keycloak_auth w) with
    | None => (Raise TypeError, w)
    | Some d => set_public_keys (<[kid := key]> d) w
    end.

(** [not self._public_keys]: true for [None] and for the empty dict. *)
Definition not_public_keys : M bool :=
  fun w =>
    match _public_keys (keycloak_auth w) with
    | None => (Ok true, w)
    | Some d => (Ok (bool_decide (d = ∅)), w)
    end.

(** [key_id not in self._public_keys] *)
Definition not_in_public_keys (key_id : pykey) : M bool :=
  fun w =>
    match _public_keys (keycloak_auth w) with
    | None => (Raise TypeError, w)
    | Some d => (Ok (bool_decide (d !! key_id = None)), w)
    end.

(** [self._public_keys[key_id]] *)
Definition getitem_public_keys (key_id : pykey) : M PublicKey :=
  fun w =>
    match _public_keys (keycloak_auth w) with
    | None => (Raise TypeError, w)
    | Some d =>
        match d !! key_id with
        | Some k => (Ok k, w)
        | None => (Raise (KeyError (default "None" key_id)), w)
        end
    end.

(** *** requests *)

Definition get (url : string) : M response :=
  fun w =>
    match requests_get url (requests_sent w) with
    | ConnectionFailed => (Raise ConnectionError, one_more_request w)
    | Responded r => (Ok r, one_more_request w)
    end.

Definition raise_for_status (r : response) : M unit :=
  if is_error_status (status r) then raise (HTTPError (status r)) else ret tt.

Definition json (r : response) : M jwks_document :=
  match body r with
  | None => raise JSONDecodeError
  | Some j => ret j
  end.

(** [jwks['keys']] *)
Definition getitem_keys (jwks : jwks_document) : M (list jwk) :=
  match jwks_keys jwks with
  | None => raise (KeyError "keys")
  | Some ks => ret ks
  end.

(** [RSAAlgorithm.from_jwk(key)] *)
Definition from_jwk (key : jwk) : M PublicKey :=
  match jwk_rsa key with
  | None => raise InvalidKeyError
  | Some k => ret k
  end.

(** [key['kid']] *)
Definition getitem_kid (key : jwk) : M pykey :=
  match jwk_kid key with
  | None => raise (KeyError "kid")
  | Some k => ret k
  end.

(** [for x in l: body(x)] *)
Fixpoint for_each {A} (l : list A) (body : A -> M unit) : M unit :=
  match l with
  | [] => ret tt
  | x :: l' => (body x ;;; for_each l' body)
  end.

(** ** KeycloakAuth._load_public_keys *)

(** Lines 167-171 and the evaluation of [jwks['keys']] that opens the
    loop: the dict is reset before the document is looked into. *)
Definition fetch_jwks : M (list jwk) :=
  (a <- self ;;
   response <- get (certs_url a) ;;
   raise_for_status response ;;;
   jwks <- json response ;;
   set_public_keys ∅ ;;;
   getitem_keys jwks).

(** Line 174, the body of the loop.  The right-hand side of the assignment
    is evaluated before the subscript of its target. *)
Definition store_key (key : jwk) : M unit :=
  (k <- from_jwk key ;;
   kid <- getitem_kid key ;;
   setitem_public_keys kid k).

Definition _load_public_keys : M unit :=
  (keys <- fetch_jwks ;;
   for_each keys store_key).

(** The refresh as another thread finds it when the refreshing thread is
    switched out after [n] iterations of the loop (CPython may switch
    threads between any two statements). *)
Definition _load_public_keys_preempted (n : nat) : M unit :=
  (keys <- fetch_jwks ;;
   for_each (take n keys) store_key).

(** ** KeycloakAuth.verify_token *)

(** [try: m  except jwt.InvalidTokenError: return None] *)
Definition try_except_InvalidTokenError {A} (m : M (option A)) : M (option A) :=
  fun w =>
    match m w with
    | (Raise InvalidTokenError, w') => (Ok None, w')
    | r => r
    end.

(** Lines 150-160: fetch the key, decode, return the payload. *)
Definition decode_with (token : string) (key_id : pykey) : M (option claims) :=
  (a <- self ;;
   public_key <- getitem_public_keys key_id ;;
   t <- now ;;
   payload <- lift (jwt_decode token public_key ["RS256"%string]
                               (client_id a) (base_url a) t) ;;
   ret (Some payload)).

Definition verify_token (token : string) : M (option claims) :=
  try_except_InvalidTokenError
    (empty <- not_public_keys ;;
     (if empty : bool then _load_public_keys else ret tt) ;;;
     header <- lift (jwt_get_unverified_header token) ;;
     let key_id := header !! "kid"%string in
     missing <- not_in_public_keys key_id ;;
     if missing : bool then
       _load_public_keys ;;;
       still_missing <- not_in_public_keys key_id ;;
       if still_missing : bool then ret None
       else decode_with token key_id
     else decode_with token key_id).

(** ** get_current_user *)

(** [not payload]: [None] and the empty dict are falsy. *)
Definition not_payload (payload : option claims) : bool :=
  match payload with
  | None => true
  | Some p => bool_decide (p = ∅)
  end.

Definition unauthorized : exn :=
  HTTPException 401 "Invalid or expired token"
                (Some [("WWW-Authenticate", "Bearer")]%string).

(** [credentials.credentials] is the bearer token. *)
Definition get_current_user (credentials : string) : M claims :=
  (let token := credentials in
   payload <- verify_token token ;;
   if not_payload payload then raise unauthorized
   else match payload with
        | Some p => ret p
        | None => raise unauthorized
        end).

(** ** require_role *)

Definition forbidden (required_role : string) : exn :=
  HTTPException 403 ("Required role '" +:+ required_role +:+ "' not found") None.

(** [current_user.get('realm_access', {}).get('roles', [])] *)
Definition user_roles (current_user : claims) : result pyval :=
  match py_get (PDict current_user) "realm_access" (PDict ∅) with
  | Ok realm_access => py_get realm_access "roles" (PList [])
  | Raise e => Raise e
  end.

(** [require_role(required_role)] returns the closure [check_role]; the
    argument [current_user] is what [get_current_user] returned. *)
Definition require_role (required_role : string) : claims -> result claims :=
  let check_role (current_user : claims) : result claims :=
    match user_roles current_user with
    | Raise e => Raise e
    | Ok roles =>
        match py_in_str required_role roles with
        | Raise e => Raise e
        | Ok true => Ok current_user
        | Ok false => Raise (forbidden required_role)
        end
    end in
  check_role.

(** The dependency chain [Depends(require_role(r))] over
    [Depends(get_current_user)] for one request. *)
Definition role_gate (required_role : string) (credentials : string) : M claims :=
  (current_user <- get_current_user credentials ;;
   lift (require_role required_role current_user)).

(** ** Closed forms

    The functions below restate the code above without the monad; the
    lemmas [load_public_keys_eq] and [verify_token_eq] show that they
    compute the same results. *)

(** What the loop of [_load_public_keys] leaves in the dict, and how it
    ends, when it starts from [d]. *)
Fixpoint stored (keys : list jwk) (d : gmap pykey PublicKey)
    : result unit * gmap pykey PublicKey :=
  match keys with
  | [] => (Ok tt, d)
  | key :: keys' =>
      match jwk_rsa key, jwk_kid key with
      | None, _ => (Raise InvalidKeyError, d)
      | Some _, None => (Raise (KeyError "kid"), d)
      | Some k, Some kid => stored keys' (<[kid := k]> d)
      end
  end.

Definition well_formed (key : jwk) : bool :=
  match jwk_rsa key, jwk_kid key with
  | Some _, Some _ => true
  | _, _ => false
  end.

(** The key identifiers that a key set document lists. *)
Definition kids (keys : list jwk) : list pykey := omap jwk_kid keys.

(** What the [try] block makes of the result of [jwt.decode]. *)
Definition finish (r : result claims) (w : world)
    : result (option claims) * world :=
  match r with
  | Ok payload => (Ok (Some payload), w)
  | Raise InvalidTokenError => (Ok None, w)
  | Raise e => (Raise e, w)
  end.

(** Lines 150-160 for a key identifier that the dict holds. *)
Definition decoded (token : string) (key_id : pykey) (w : world) :=
  match _public_keys (keycloak_auth w) with
  | None => (Raise TypeError, w)
  | Some d =>
      match d !! key_id with
      | None => (Raise (KeyError (default "None"%string key_id)), w)
      | Some public_key =>
          finish (jwt_decode token public_key ["RS256"%string]
                    (client_id (keycloak_auth w)) (base_url (keycloak_auth w))
                    (clock w)) w
      end
  end.

(** Lines 141-160 under the [try]. *)
Definition resolve (token : string) (w : world) :=
  match jwt_get_unverified_header token with
  | Raise InvalidTokenError => (Ok None, w)
  | Raise e => (Raise e, w)
  | Ok h =>
      let key_id := h !! "kid"%string in
      match _public_keys (keycloak_auth w) with
      | None => (Raise TypeError, w)
      | Some d =>
          match d !! key_id with
          | Some _ => decoded token key_id w
          | None =>
              match _load_public_keys w with
              | (Raise e, w1) => (Raise e, w1)
              | (Ok _, w1) =>
                  match _public_keys (keycloak_auth w1) with
                  | None => (Raise TypeError, w1)
                  | Some d1 =>
                      match d1 !! key_id with
                      | None => (Ok None, w1)
                      | Some _ => decoded token key_id w1
                      end
                  end
              end
          end
      end
  end.

(** [not self._public_keys] as a function of the world. *)
Definition cache_empty (w : world) : bool :=
  match _public_keys (keycloak_auth w) with
  | None => true
  | Some d => bool_decide (d = ∅)
  end.

(** The key list that a response carries, when [fetch_jwks] gets to it. *)
Definition published (o : http_outcome) : option (list jwk) :=
  match o with
  | ConnectionFailed => None
  | Responded r =>
      if is_error_status (status r) then None
      else match body r with
           | Some jwks => jwks_keys jwks
           | None => None
           end
  end.

(** The answer that the next request to the certificate endpoint gets. *)
Definition answer (w : world) : http_outcome :=
  requests_get (certs_url (keycloak_auth w)) (requests_sent w).

(** The dict that a loop over [keys] builds from the empty dict. *)
Definition key_set (keys : list jwk) : gmap pykey PublicKey :=
  snd (stored keys ∅).

(** From the request that [w] sends next onwards, the provider publishes
    complete key sets that do not list [key_id]. *)
Definition rotated_out (key_id : pykey) (w : world) : Prop :=
  forall n, (requests_sent w <= n)%nat ->
    exists keys,
      published (requests_get (certs_url (keycloak_auth w)) n) = Some keys
      /\ forallb well_formed keys = true
      /\ key_id ∉ kids keys.

(** What PyJWT documents of [jwt.decode]: a payload is returned only for
    a token whose RS256 signature verifies under the given key
    ([verifies], the cryptography, is left abstract), whose [aud] contains
    the audience asked for, whose [iss] is the issuer asked for, and whose
    [exp], if it has one, is later than the clock. *)
Definition jwt_decode_contract (verifies : string -> PublicKey -> Prop) : Prop :=
  forall token public_key audience issuer t payload,
    jwt_decode token public_key ["RS256"%string] audience issuer t = Ok payload ->
    verifies token public_key
    /\ audience_contains payload audience = true
    /\ issuer_is payload issuer = true
    /\ expired payload t = false.

(** The refresh fails before the body is decoded. *)
Definition fails_before_parsing (o : http_outcome) : bool :=
  match o with
  | ConnectionFailed => true
  | Responded r =>
      is_error_status (status r)
      || match body r with Some _ => false | None => true end
  end.

(** ** The ways a token is refused

    [started_in w w0]: a verification that starts in [w] looks at the
    token in [w0], which is [w] when the dict holds keys and [w] after the
    refresh of line 138 otherwise. *)
Definition started_in (w w0 : world) : Prop :=
  (cache_empty w = false /\ w0 = w)
  \/ (cache_empty w = true /\ _load_public_keys w = (Ok tt, w0)).

(** [verification_failure token w0 w']: looked at in [w0], the token is
    refused for one of the reasons below, and the verification ends in
    [w'].  A header without [kid] is the case [UnknownKey] for the key
    identifier [None]; a bad signature and a rejected claim are both an
    [InvalidTokenError] of [jwt.decode].  Every refresh on the way
    succeeds. *)
Inductive verification_failure (token : string) (w0 : world) : world -> Prop :=
| MalformedToken :
    jwt_get_unverified_header token = Raise InvalidTokenError ->
    verification_failure token w0 w0
| UnknownKey h d w1 d1 :
    jwt_get_unverified_header token = Ok h ->
    _public_keys (keycloak_auth w0) = Some d ->
    d !! (h !! "kid"%string) = None ->
    _load_public_keys w0 = (Ok tt, w1) ->
    _public_keys (keycloak_auth w1) = Some d1 ->
    d1 !! (h !! "kid"%string) = None ->
    verification_failure token w0 w1
| RejectedByDecode h d public_key :
    jwt_get_unverified_header token = Ok h ->
    _public_keys (keycloak_auth w0) = Some d ->
    d !! (h !! "kid"%string) = Some public_key ->
    jwt_decode token public_key ["RS256"%string]
      (client_id (keycloak_auth w0)) (base_url (keycloak_auth w0)) (clock w0)
    = Raise InvalidTokenError ->
    verification_failure token w0 w0
| RejectedAfterRefresh h d w1 d1 public_key :
    jwt_get_unverified_header token = Ok h ->
    _public_keys (keycloak_auth w0) = Some d ->
    d !! (h !! "kid"%string) = None ->
    _load_public_keys w0 = (Ok tt, w1) ->
    _public_keys (keycloak_auth w1) = Some d1 ->
    d1 !! (h !! "kid"%string) = Some public_key ->
    jwt_decode token public_key ["RS256"%string]
      (client_id (keycloak_auth w1)) (base_url (keycloak_auth w1)) (clock w1)
    = Raise InvalidTokenError ->
    verification_failure token w0 w1.

(** ** Overlapping refreshes

    Several threads run [_load_public_keys] on the one [keycloak_auth]
    object; a thread is switched out between two statements.  What a
    refresher shares with the others is the attribute [_public_keys]:
    line 171 assigns it a new dict, and line 174 reads the attribute anew
    in every iteration and stores into the dict it finds there.  The
    response and the key list are local to the thread. *)

(** Lines 167-170: the request and the decoding of its body. *)
Definition get_jwks : M jwks_document :=
  (a <- self ;;
   response <- get (certs_url a) ;;
   raise_for_status response ;;;
   json response).

(** Line 171 and the evaluation of [jwks['keys']] in line 173. *)
Definition reset_and_keys (jwks : jwks_document) : M (list jwk) :=
  (set_public_keys ∅ ;;;
   getitem_keys jwks).

(** Where a refresher stands: before line 167, before line 171 with the
    decoded document, in the loop with the keys still to store, or done
    (returned or raised). *)
Inductive refresher :=
| Starting
| Fetched (jwks : jwks_document)
| Storing (pending : list jwk)
| Finished.

(** One step of one refresher on the shared object. *)
Definition step (t : refresher) (w : world) : refresher * world :=
  match t with
  | Starting =>
      match get_jwks w with
      | (Ok jwks, w') => (Fetched jwks, w')
      | (Raise _, w') => (Finished, w')
      end
  | Fetched jwks =>
      match reset_and_keys jwks w with
      | (Ok keys, w') => (Storing keys, w')
      | (Raise _, w') => (Finished, w')
      end
  | Storing [] => (Finished, w)
  | Storing (key :: pending) =>
      match store_key key w with
      | (Ok _, w') => (Storing pending, w')
      | (Raise _, w') => (Finished, w')
      end
  | Finished => (Finished, w)
  end.

(** The threads run as the schedule says: its [i]-th element names the
    thread that makes the [i]-th step. *)
Fixpoint run (schedule : list nat) (threads : list refresher) (w : world)
    : list refresher * world :=
  match schedule with
  | [] => (threads, w)
  | i :: schedule' =>
      match threads !! i with
      | Some t =>
          let '(t', w') := step t w in
          run schedule' (<[i := t']> threads) w'
      | None => run schedule' threads w
      end
  end.

(** The entry [kid : k] was listed in a key set that a request sent after
    [w] and before [w'] fetched. *)
Definition fetched_between (w w' : world) (kid : pykey) (k : PublicKey) : Prop :=
  exists i keys key,
    (requests_sent w <= i < requests_sent w')%nat
    /\ published (requests_get (certs_url (keycloak_auth w)) i) = Some keys
    /\ key ∈ keys
    /\ jwk_kid key = Some kid
    /\ jwk_rsa key = Some k.

(** What a refresher holds locally comes from a request of the run. *)
Definition thread_ok (w w' : world) (t : refresher) : Prop :=
  match t with
  | Starting | Finished => True
  | Fetched jwks =>
      exists i r,
        (requests_sent w <= i < requests_sent w')%nat
        /\ requests_get (certs_url (keycloak_auth w)) i = Responded r
        /\ is_error_status (status r) = false
        /\ body r = Some jwks
  | Storing pending =>
      exists i keys,
        (requests_sent w <= i < requests_sent w')%nat
        /\ published (requests_get (certs_url (keycloak_auth w)) i) = Some keys
        /\ forall key, key ∈ pending -> key ∈ keys
  end.

Definition not_storing (t : refresher) : Prop :=
  match t with
  | Storing _ => False
  | _ => True
  end.

(** Every entry of the dict was fetched during the run. *)
Definition only_fetched (w w' : world) : Prop :=
  exists d,
    _public_keys (keycloak_auth w') = Some d
    /\ forall kid k, d !! kid = Some k -> fetched_between w w' kid k.

(** The invariant of a run that started in [w]. *)
Definition run_invariant (w : world) (threads : list refresher) (w' : world)
    : Prop :=
  certs_url (keycloak_auth w') = certs_url (keycloak_auth w)
  /\ (requests_sent w <= requests_sent w')%nat
  /\ Forall (thread_ok w w') threads
  /\ ((_public_keys (keycloak_auth w') = _public_keys (keycloak_auth w)
       /\ Forall not_storing threads)
      \/ only_fetched w w').

End Keycloak.

Arguments jwk : clear implicits.
Arguments jwks_document : clear implicits.
Arguments response : clear implicits.
Arguments http_outcome : clear implicits.
Arguments KeycloakAuth : clear implicits.
Arguments world : clear implicits.
Arguments M : clear implicits.
Arguments refresher : clear implicits.

(** ** KeycloakAuth.__init__ and the token endpoint

    The attributes that the verifier does not read ([server_url], [realm],
    [client_secret], [token_url], [userinfo_url]) are kept beside the
    [KeycloakAuth] record above.  [os.environ], [urllib.parse.urljoin] and
    the provider's answers to [requests.post] and to the authenticated
    [requests.get] are parameters. *)

(** [Authorization]-less data of a form or a header dict: a [str] or
    [None]. *)
Definition py_opt (o : option string) : pyval :=
  match o with
  | Some s => PStr s
  | None => PNone
  end.

(** What a request to the token or userinfo endpoint gets: no response, or
    a status and a body, [None] when the body is not JSON. *)
Inductive http_reply :=
| NoReply
| Replied (reply_status : Z) (reply_json : option pyval).

Section Client.

Context {PublicKey : Type}.

Variable environ : gmap string string.
Variable urljoin : string -> string -> string.
Variable requests_post : string -> gmap string pyval -> http_reply.
Variable requests_get_with_headers : string -> gmap string string -> http_reply.

Record KeycloakClient := {
  server_url : string;
  realm : string;
  client_secret : option string;
  token_url : string;
  userinfo_url : string;
  verifier : KeycloakAuth PublicKey
}.

(** [a or b] where [b] is a [str]: [None] and [''] are falsy. *)
Definition or_str (a : option string) (b : string) : string :=
  match a with
  | Some s => if String.eqb s "" then b else s
  | None => b
  end.

(** [a or b] where [b] may be [None]. *)
Definition or_opt (a b : option string) : option string :=
  match a with
  | Some s => if String.eqb s "" then b else Some s
  | None => b
  end.

(** [os.getenv(name, default)] *)
Definition getenv (name default_value : string) : string :=
  default default_value (environ !! name).

Definition __init__ (server_url realm client_id client_secret : option string)
    : KeycloakClient :=
  let server_url := or_str server_url (getenv "KEYCLOAK_URL" "http://localhost:8080") in
  let realm := or_str realm (getenv "KEYCLOAK_REALM" "caretwin") in
  let client_id := or_str client_id (getenv "API_CLIENT_ID" "3dgs-api-service") in
  let client_secret := or_opt client_secret (environ !! "API_CLIENT_SECRET"%string) in
  let base_url := urljoin server_url ("/realms/" +:+ realm +:+ "/") in
  let token_url := urljoin base_url "protocol/openid-connect/token" in
  let userinfo_url := urljoin base_url "protocol/openid-connect/userinfo" in
  let certs_url := urljoin base_url "protocol/openid-connect/certs" in
  {| server_url := server_url; realm := realm; client_secret := client_secret;
     token_url := token_url; userinfo_url := userinfo_url;
     verifier := {| client_id := client_id; base_url := base_url;
                    certs_url := certs_url; _public_keys := None |} |}.

(** [response.raise_for_status()] then [return response.json()] *)
Definition checked_json (reply : http_reply) : result pyval :=
  match reply with
  | NoReply => Raise ConnectionError
  | Replied st body =>
      if is_error_status st then Raise (HTTPError st)
      else match body with
           | Some v => Ok v
           | None => Raise JSONDecodeError
           end
  end.

Definition get_client_credentials_token (self : KeycloakClient) : result pyval :=
  let data : gmap string pyval :=
    <[ "grant_type"%string := PStr "client_credentials" ]>
    (<[ "client_id"%string := PStr (client_id (verifier self)) ]>
    {[ "client_secret"%string := py_opt (client_secret self) ]}) in
  let response := requests_post (token_url self) data in
  checked_json response.

Definition exchange_authorization_code (self : KeycloakClient)
    (code redirect_uri : string) : result pyval :=
  let data : gmap string pyval :=
    <[ "grant_type"%string := PStr "authorization_code" ]>
    (<[ "client_id"%string := PStr (client_id (verifier self)) ]>
    (<[ "client_secret"%string := py_opt (client_secret self) ]>
    (<[ "code"%string := PStr code ]>
    {[ "redirect_uri"%string := PStr redirect_uri ]}))) in
  let response := requests_post (token_url self) data in
  checked_json response.

Definition refresh_token (self : KeycloakClient) (refresh_token : string)
    : result pyval :=
  let data : gmap string pyval :=
    <[ "grant_type"%string := PStr "refresh_token" ]>
    (<[ "client_id"%string := PStr (client_id (verifier self)) ]>
    (<[ "client_secret"%string := py_opt (client_secret self) ]>
    {[ "refresh_token"%string := PStr refresh_token ]})) in
  let response := requests_post (token_url self) data in
  checked_json response.

Definition get_user_info (self : KeycloakClient) (access_token : string)
    : result pyval :=
  let headers : gmap string string :=
    {[ "Authorization"%string := ("Bearer " +:+ access_token)%string ]} in
  let response := requests_get_with_headers (userinfo_url self) headers in
  checked_json response.

End Client.

Arguments KeycloakClient : clear implicits.

(** ** main.py: the handlers and their dependencies

    A handler is a function of the values that FastAPI injects; a route
    runs the dependency and then the handler.  The handlers that build
    pydantic models from the claims ([get_user_profile]) are left out. *)

Section Routes.

Context {PublicKey : Type}.

Variable jwt_get_unverified_header : string -> result header.
Variable jwt_decode :
  string -> PublicKey -> list string -> string -> string -> Z -> result claims.
Variable requests_get : string -> nat -> http_outcome PublicKey.

(** [current_user.get(key)] *)
Definition claim (current_user : claims) (key : string) : pyval :=
  default PNone (current_user !! key).

Definition root : pyval :=
  PDict (<[ "message"%string := PStr "CareTwin 3DGS API Service" ]>
         {[ "status"%string := PStr "running" ]}).

Definition health_check : pyval :=
  PDict (<[ "status"%string := PStr "healthy" ]>
         {[ "service"%string := PStr "3dgs-api" ]}).

(** The values of the dict display are evaluated in order; only the last
    one can raise. *)
Definition protected_endpoint (current_user : claims) : result pyval :=
  let user := claim current_user "preferred_username" in
  match user_roles current_user with
  | Raise e => Raise e
  | Ok roles =>
      Ok (PDict (<[ "message"%string := PStr "Access granted to protected resource" ]>
                 (<[ "user"%string := user ]>
                 {[ "roles"%string := roles ]})))
  end.

Definition admin_only_endpoint (current_user : claims) : pyval :=
  PDict (<[ "message"%string := PStr "Admin access granted" ]>
         {[ "user"%string := claim current_user "preferred_username" ]}).

(** [ModelData(id=.., name=.., description=.., file_path=..)] *)
Definition ModelData (id name description file_path : string) : pyval :=
  PDict (<[ "id"%string := PStr id ]>
         (<[ "name"%string := PStr name ]>
         (<[ "description"%string := PStr description ]>
         {[ "file_path"%string := PStr file_path ]}))).

Definition list_models (current_user : claims) : pyval :=
  let mock_models :=
    [ ModelData "model_1" "Sample Building" "3D scan of a sample building"
                "/models/building_001.ply";
      ModelData "model_2" "Interior Room" "Interior room scan"
                "/models/room_001.ply" ] in
  PDict {[ "models"%string := PList mock_models ]}.

Definition create_model (model_data : pyval) (current_user : claims) : pyval :=
  PDict (<[ "message"%string := PStr "Model created successfully" ]>
         (<[ "model"%string := model_data ]>
         {[ "created_by"%string := claim current_user "preferred_username" ]})).

Definition get_model (model_id : string) (current_user : claims) : result pyval :=
  if String.eqb model_id "model_1"
  then Ok (ModelData model_id "Sample Building" "3D scan of a sample building"
                     "/models/building_001.ply")
  else Raise (HTTPException 404 "Model not found" None).

(** [GET /protected] *)
Definition route_protected (credentials : string) : M PublicKey pyval :=
  bind (get_current_user jwt_get_unverified_header jwt_decode requests_get
          credentials)
       (fun current_user => lift (protected_endpoint current_user)).

(** [GET /admin-only] *)
Definition route_admin_only (credentials : string) : M PublicKey pyval :=
  bind (role_gate jwt_get_unverified_header jwt_decode requests_get
          "admin" credentials)
       (fun current_user => ret (admin_only_endpoint current_user)).

(** [GET /models] *)
Definition route_list_models (credentials : string) : M PublicKey pyval :=
  bind (get_current_user jwt_get_unverified_header jwt_decode requests_get
          credentials)
       (fun current_user => ret (list_models current_user)).

(** [POST /models] *)
Definition route_create_model (model_data : pyval) (credentials : string)
    : M PublicKey pyval :=
  bind (role_gate jwt_get_unverified_header jwt_decode requests_get
          "api_user" credentials)
       (fun current_user => ret (create_model model_data current_user)).

(** [GET /models/{model_id}] *)
Definition route_get_model (model_id credentials : string) : M PublicKey pyval :=
  bind (get_current_user jwt_get_unverified_header jwt_decode requests_get
          credentials)
       (fun current_user => lift (get_model model_id current_user)).

End Routes.

(** ** A symbolic PyJWT

    Tokens are the entries of a table of issued tokens; a signature
    verifies under the key that produced it and under no other.  The
    signature is checked first, then [exp], then [iss] and [aud]; every
    refusal is an [InvalidTokenError], as in PyJWT. *)

Module SymbolicJwt.
Section SymbolicJwt.

Context `{EqDecision PublicKey}.

Record issued := {
  jws : string;            (* the compact serialization *)
  jws_header : header;
  jws_signer : PublicKey;
  jws_payload : claims
}.

Variable issued_tokens : list issued.

Definition parse (token : string) : option issued :=
  List.find (fun i => String.eqb (jws i) token) issued_tokens.

Definition get_unverified_header (token : string) : result header :=
  match parse token with
  | Some i => Ok (jws_header i)
  | None => Raise InvalidTokenError
  end.

Definition algorithm_allowed (h : header) (algorithms : list string) : bool :=
  match h !! "alg"%string with
  | Some a => existsb (String.eqb a) algorithms
  | None => false
  end.

(** The signature of [token] verifies under [key]. *)
Definition verifies (token : string) (key : PublicKey) : Prop :=
  exists i, parse token = Some i /\ jws_signer i = key.

Definition decode (token : string) (key : PublicKey) (algorithms : list string)
    (audience issuer : string) (now : Z) : result claims :=
  match parse token with
  | None => Raise InvalidTokenError
  | Some i =>
      if algorithm_allowed (jws_header i) algorithms
         && bool_decide (jws_signer i = key)
      then
        match exp_claim (jws_payload i) with
        | Raise e => Raise e
        | Ok exp =>
            if negb (expired (jws_payload i) now)
               && issuer_is (jws_payload i) issuer
               && audience_contains (jws_payload i) audience
            then Ok (jws_payload i)
            else Raise InvalidTokenError
        end
      else Raise InvalidTokenError
  end.

End SymbolicJwt.
End SymbolicJwt.

(** ** The scenario of the specification

    A provider that publishes the keys [k1] and [k2], a service configured
    with the defaults of [KeycloakAuth.__init__], and a few tokens. *)

Module Scenario.

Definition service (keys : option (gmap pykey nat)) : KeycloakAuth nat := {|
  client_id := "3dgs-api-service";
  base_url := "http://localhost:8080/realms/caretwin/";
  certs_url := "http://localhost:8080/realms/caretwin/protocol/openid-connect/certs";
  _public_keys := keys
|}.

Definition at_start (keys : option (gmap pykey nat)) : world nat :=
  {| keycloak_auth := service keys; clock := 1000; requests_sent := 0 |}.

(** The service as constructed, with one key cached, and with a key cached
    that the provider has since withdrawn. *)
Definition cold : world nat := at_start None.
Definition warm : world nat := at_start (Some {[ Some "k1"%string := 11%nat ]}).
Definition stale : world nat := at_start (Some {[ Some "k3"%string := 13%nat ]}).

Definition k1 : jwk nat :=
  {| jwk_kid := Some (Some "k1"%string); jwk_rsa := Some 11%nat |}.
Definition k2 : jwk nat :=
  {| jwk_kid := Some (Some "k2"%string); jwk_rsa := Some 12%nat |}.

Definition respond (doc : jwks_document nat) : http_outcome nat :=
  Responded {| status := 200; body := Some doc |}.

(** The provider answers every request with [{k1, k2}]. *)
Definition provider (url : string) (n : nat) : http_outcome nat :=
  respond {| jwks_keys := Some [k1; k2] |}.

(** A provider that answers with a JSON object that has no ['keys']. *)
Definition provider_without_keys (url : string) (n : nat) : http_outcome nat :=
  respond {| jwks_keys := None |}.

(** A provider that cannot be reached. *)
Definition provider_down (url : string) (n : nat) : http_outcome nat :=
  ConnectionFailed.

(** The world after one successful refresh against [provider]. *)
Definition refreshed (w : world nat) : world nat :=
  with_public_keys (key_set [k1; k2]) (one_more_request w).

Definition registered (sub aud : string) : claims :=
  <[ "sub"%string := PStr sub ]>
  (<[ "aud"%string := PStr aud ]>
  (<[ "iss"%string := PStr "http://localhost:8080/realms/caretwin/" ]>
  {[ "exp"%string := PInt 2000 ]})).

Definition payload_of (sub aud : string) (roles : list string) : claims :=
  <[ "realm_access"%string :=
       PDict {[ "roles"%string := PList (PStr <$> roles) ]} ]>
  (registered sub aud).

Definition rs256 (kid : option string) : header :=
  match kid with
  | Some k => <[ "kid"%string := k ]> {[ "alg"%string := "RS256"%string ]}
  | None => {[ "alg"%string := "RS256"%string ]}
  end.

Definition user42 : claims := payload_of "user-42" "3dgs-api-service" ["api_user"%string].

Definition guest : claims := registered "guest-7" "3dgs-api-service".

(** The registered claims without [exp]. *)
Definition unlimited : claims :=
  <[ "sub"%string := PStr "user-42" ]>
  (<[ "aud"%string := PStr "3dgs-api-service" ]>
  {[ "iss"%string := PStr "http://localhost:8080/realms/caretwin/" ]}).

(** The same world at the start of the year 2100. *)
Definition in_2100 (w : world nat) : world nat :=
  {| keycloak_auth := keycloak_auth w; clock := 4102444800;
     requests_sent := requests_sent w |}.

Definition issue (token : string) (kid : option string) (signer : nat)
    (payload : claims) : SymbolicJwt.issued (PublicKey := nat) :=
  {| SymbolicJwt.jws := token; SymbolicJwt.jws_header := rs256 kid;
     SymbolicJwt.jws_signer := signer; SymbolicJwt.jws_payload := payload |}.

Definition tokens : list (SymbolicJwt.issued (PublicKey := nat)) := [
  issue "tokenA" (Some "k1") 11 user42;
  issue "tokenK3" (Some "k3") 13 user42;
  issue "tokenNoKid" None 11 user42;
  issue "tokenOtherAudience" (Some "k1") 11
        (payload_of "user-42" "web-app" ["api_user"]);
  issue "tokenGuest" (Some "k1") 11 guest;
  issue "tokenNoExp" (Some "k1") 11 unlimited
]%string%nat.

Definition header_of := SymbolicJwt.get_unverified_header tokens.
Definition decode := SymbolicJwt.decode tokens.

Definition verify := verify_token header_of decode provider.

(** [o[kid]] for the value [o] of [_public_keys], [None] when unset or
    absent. *)
Definition holds (kid : string) (o : option (gmap pykey nat)) : option nat :=
  match o with
  | Some d => d !! Some kid
  | None => None
  end.

(** A stand-in for [jwt.decode] that returns the empty dict. *)
Definition decode_nothing (token : string) (key : nat) (algorithms : list string)
    (audience issuer : string) (now : Z) : result claims :=
  Ok ∅.

(** An entry without ['kid'], and a second key under the identifier
    [k1]. *)
Definition k_without_kid : jwk nat :=
  {| jwk_kid := None; jwk_rsa := Some 19%nat |}.
Definition k1_renewed : jwk nat :=
  {| jwk_kid := Some (Some "k1"%string); jwk_rsa := Some 21%nat |}.

(** A provider whose second entry has no ['kid']. *)
Definition provider_with_broken_entry (url : string) (n : nat) : http_outcome nat :=
  respond {| jwks_keys := Some [k1; k_without_kid; k2] |}.

(** A network that answers like [provider] at the service's [certs_url]
    and fails everywhere else. *)
Definition provider_at_certs_url_only (url : string) (n : nat) : http_outcome nat :=
  if String.eqb url (certs_url (service None)) then provider url n
  else ConnectionFailed.

(** A claim set whose role value is a string. *)
Definition administrator : claims :=
  <[ "realm_access"%string := PDict {[ "roles"%string := PStr "administrator" ]} ]>
  guest.

(** An environment that names the realm, a stand-in for [urljoin] that
    agrees with it on a base without path and on references below a base
    that ends in a slash, and the client built with them. *)
Definition environ : gmap string string :=
  {[ "KEYCLOAK_REALM"%string := "staging"%string ]}.

Definition join (base reference : string) : string := base +:+ reference.

Definition client : KeycloakClient nat :=
  __init__ environ join None None None (Some "s3cret"%string).

Definition token_response : pyval :=
  PDict (<[ "access_token"%string := PStr "tokenA" ]>
         (<[ "token_type"%string := PStr "Bearer" ]>
         {[ "expires_in"%string := PInt 300 ]})).

(** A token endpoint that knows the client by its secret. *)
Definition token_endpoint (url : string) (data : gmap string pyval) : http_reply :=
  match data !! "client_secret"%string with
  | Some (PStr "s3cret") => Replied 200 (Some token_response)
  | _ => Replied 401 (Some (PDict {[ "error"%string := PStr "unauthorized_client" ]}))
  end.

(** A token endpoint that is out of service, with a body that looks like a
    token response. *)
Definition token_endpoint_unavailable (url : string) (data : gmap string pyval)
    : http_reply :=
  Replied 503 (Some token_response).

Definition userinfo_endpoint (url : string) (headers : gmap string string)
    : http_reply :=
  match headers !! "Authorization"%string with
  | Some "Bearer tokenA" => Replied 200 (Some (PDict user42))
  | _ => Replied 401 None
  end.

(** A provider that rotates its keys between the first request and the
    second: [{k1, k2}], then [{k3}]. *)
Definition k3 : jwk nat :=
  {| jwk_kid := Some (Some "k3"%string); jwk_rsa := Some 13%nat |}.

Definition provider_rotating (url : string) (n : nat) : http_outcome nat :=
  match n with
  | O => respond {| jwks_keys := Some [k1; k2] |}
  | S _ => respond {| jwks_keys := Some [k3] |}
  end.

(** A service whose dict holds a key [k0] that no key set lists. *)
Definition outdated : world nat := at_start (Some {[ Some "k0"%string := 10%nat ]}).

End Scenario.

(** * Properties *)

Section Properties.

Context {PublicKey : Type}.

Variable jwt_get_unverified_header : string -> result header.
Variable jwt_decode :
  string -> PublicKey -> list string -> string -> string -> Z -> result claims.
Variable requests_get : string -> nat -> http_outcome PublicKey.

#[local] Abbreviation fetch := (fetch_jwks requests_get).
#[local] Abbreviation load := (_load_public_keys requests_get).
#[local] Abbreviation verify :=
  (verify_token jwt_get_unverified_header jwt_decode requests_get).
#[local] Abbreviation cached w := (_public_keys (keycloak_auth w)).
#[local] Abbreviation resolve :=
  (resolve jwt_get_unverified_header jwt_decode requests_get).
#[local] Abbreviation decoded := (decoded jwt_decode).
#[local] Abbreviation answer := (answer requests_get).
#[local] Abbreviation rotated_out := (rotated_out requests_get).
#[local] Abbreviation preempted := (_load_public_keys_preempted requests_get).
#[local] Abbreviation current_user :=
  (get_current_user jwt_get_unverified_header jwt_decode requests_get).
#[local] Abbreviation gate :=
  (role_gate jwt_get_unverified_header jwt_decode requests_get).

Implicit Types (w : world PublicKey) (d : gmap pykey PublicKey)
  (key : jwk PublicKey) (keys : list (jwk PublicKey)).

(** ** The refresh, in closed form *)

Lemma with_public_keys_cached d w : cached (with_public_keys d w) = Some d.
Proof. reflexivity. Qed.

Lemma with_public_keys_twice d d' w :
  with_public_keys d' (with_public_keys d w) = with_public_keys d' w.
Proof. reflexivity. Qed.

Lemma with_public_keys_same d w : cached w = Some d -> with_public_keys d w = w.
Proof. destruct w as [[] ? ?]; simpl; intros ->; reflexivity. Qed.

Lemma for_each_store_key keys : forall d w,
  cached w = Some d ->
  for_each keys store_key w
  = (fst (stored keys d), with_public_keys (snd (stored keys d)) w).
Proof.
  induction keys as [|key keys IH]; intros d w Hd; simpl.
  - unfold ret. by rewrite with_public_keys_same.
  - unfold bind at 1, store_key, bind, from_jwk, getitem_kid, setitem_public_keys.
    unfold raise, ret, set_public_keys.
    destruct (jwk_rsa key) as [k|], (jwk_kid key) as [kid|]; simpl;
      rewrite ?with_public_keys_same by done; try done.
    rewrite Hd. rewrite (IH (<[kid := k]> d)) by done.
    by rewrite with_public_keys_twice.
Qed.

(** The outcome of lines 167-173, by cases on what the endpoint answers. *)
Lemma fetch_jwks_eq w :
  fetch w =
  match requests_get (certs_url (keycloak_auth w)) (requests_sent w) with
  | ConnectionFailed => (Raise ConnectionError, one_more_request w)
  | Responded r =>
      if is_error_status (status r)
      then (Raise (HTTPError (status r)), one_more_request w)
      else match body r with
           | None => (Raise JSONDecodeError, one_more_request w)
           | Some jwks =>
               match jwks_keys jwks with
               | None => (Raise (KeyError "keys"),
                          with_public_keys ∅ (one_more_request w))
               | Some keys => (Ok keys, with_public_keys ∅ (one_more_request w))
               end
           end
  end.
Proof.
  unfold fetch_jwks, bind, self, get, raise_for_status, json, set_public_keys,
    getitem_keys, raise, ret.
  destruct (requests_get _ _) as [|r]; [done|].
  destruct (is_error_status (status r)); [done|].
  destruct (body r) as [jwks|]; [|done].
  by destruct (jwks_keys jwks).
Qed.

Lemma load_public_keys_eq w :
  load w =
  match fetch w with
  | (Raise e, w') => (Raise e, w')
  | (Ok keys, w') =>
      (fst (stored keys ∅), with_public_keys (snd (stored keys ∅)) w')
  end.
Proof.
  unfold _load_public_keys, bind at 1.
  rewrite fetch_jwks_eq.
  destruct (requests_get _ _) as [|r]; [done|].
  destruct (is_error_status (status r)); [done|].
  destruct (body r) as [jwks|]; [|done].
  destruct (jwks_keys jwks) as [keys|]; [|done].
  by rewrite (for_each_store_key keys ∅).
Qed.

Lemma stored_not_invalid_token keys : forall d,
  fst (stored keys d) <> Raise InvalidTokenError.
Proof.
  induction keys as [|key keys IH]; intros d; simpl; [done|].
  destruct (jwk_rsa key), (jwk_kid key); simpl; auto; done.
Qed.

Lemma load_not_invalid_token w : fst (load w) <> Raise InvalidTokenError.
Proof.
  rewrite load_public_keys_eq, fetch_jwks_eq.
  destruct (requests_get _ _) as [|r]; [done|].
  destruct (is_error_status (status r)); [done|].
  destruct (body r) as [jwks|]; [|done].
  destruct (jwks_keys jwks) as [keys|]; [|done].
  apply stored_not_invalid_token.
Qed.

Lemma load_published w keys :
  published (answer w) = Some keys ->
  load w = (fst (stored keys ∅),
            with_public_keys (key_set keys) (one_more_request w)).
Proof.
  unfold published, answer. rewrite load_public_keys_eq, fetch_jwks_eq.
  destruct (requests_get _ _) as [|r]; [done|].
  destruct (is_error_status (status r)); [done|].
  destruct (body r) as [jwks|]; [|done].
  by intros ->.
Qed.

Lemma load_fails_before_parsing w :
  fails_before_parsing (answer w) = true ->
  exists e, load w = (Raise e, one_more_request w).
Proof.
  unfold fails_before_parsing, answer. rewrite load_public_keys_eq, fetch_jwks_eq.
  destruct (requests_get _ _) as [|r]; [by eexists|].
  destruct (is_error_status (status r)); [by eexists|].
  destruct (body r) as [jwks|]; [done|by eexists].
Qed.

(** A refresh sends one request and touches nothing but the dict. *)
Lemma load_frame w :
  let w' := snd (load w) in
  requests_sent w' = S (requests_sent w)
  /\ clock w' = clock w
  /\ client_id (keycloak_auth w') = client_id (keycloak_auth w)
  /\ base_url (keycloak_auth w') = base_url (keycloak_auth w)
  /\ certs_url (keycloak_auth w') = certs_url (keycloak_auth w).
Proof.
  rewrite load_public_keys_eq, fetch_jwks_eq.
  destruct (requests_get _ _) as [|r]; [done|].
  destruct (is_error_status (status r)); [done|].
  destruct (body r) as [jwks|]; [|done].
  by destruct (jwks_keys jwks).
Qed.

Lemma stored_ok keys : forall d,
  forallb well_formed keys = true -> fst (stored keys d) = Ok tt.
Proof.
  induction keys as [|key keys IH]; intros d; simpl; [done|].
  unfold well_formed at 1.
  destruct (jwk_rsa key), (jwk_kid key); simpl; auto; done.
Qed.

Lemma stored_lookup_other keys kid : forall d,
  kid ∉ kids keys -> snd (stored keys d) !! kid = d !! kid.
Proof.
  unfold kids. induction keys as [|key keys IH]; intros d Hkid; simpl; [done|].
  simpl in Hkid.
  destruct (jwk_rsa key) as [k|], (jwk_kid key) as [kid'|]; simpl; try done.
  apply not_elem_of_cons in Hkid as [Hne Hkid].
  rewrite IH by done. by rewrite lookup_insert_ne.
Qed.

Lemma stored_lookup_listed keys kid : forall d,
  forallb well_formed keys = true ->
  kid ∈ kids keys -> is_Some (snd (stored keys d) !! kid).
Proof.
  unfold kids. induction keys as [|key keys IH]; intros d Hwf Hkid; simpl.
  - by apply elem_of_nil in Hkid.
  - simpl in Hwf, Hkid. apply andb_prop in Hwf as [Hkey Hwf].
    unfold well_formed in Hkey.
    destruct (jwk_rsa key) as [k|], (jwk_kid key) as [kid'|]; try done.
    destruct (decide (kid ∈ omap jwk_kid keys)) as [Hin|Hout]; [by apply IH|].
    apply elem_of_cons in Hkid as [->|]; [|done].
    fold (kids keys) in Hout. rewrite stored_lookup_other by done.
    rewrite lookup_insert_eq. by eexists.
Qed.

Lemma stored_lookup_origin keys kid k : forall d,
  snd (stored keys d) !! kid = Some k ->
  d !! kid = Some k
  \/ exists key, key ∈ keys /\ jwk_kid key = Some kid /\ jwk_rsa key = Some k.
Proof.
  induction keys as [|key keys IH]; intros d; simpl; [by left|].
  destruct (jwk_rsa key) as [k'|] eqn:Hrsa, (jwk_kid key) as [kid'|] eqn:Hkid;
    simpl; try by left.
  intros [Hd|(key' & Hin & ? & ?)]%IH.
  - destruct (decide (kid' = kid)) as [->|Hne].
    + rewrite lookup_insert_eq in Hd. injection Hd as ->.
      right. exists key. split; [apply elem_of_cons; by left|done].
    + rewrite lookup_insert_ne in Hd by done. by left.
  - right. exists key'. split; [apply elem_of_cons; by right|done].
Qed.

(** ** The verifier, in closed form *)

Lemma decode_with_eq token key_id w :
  try_except_InvalidTokenError (decode_with jwt_decode token key_id) w
  = decoded token key_id w.
Proof.
  unfold try_except_InvalidTokenError, decode_with, decoded, bind, self,
    getitem_public_keys, now, lift, ret, finish.
  destruct (cached w) as [d|]; [|done].
  destruct (d !! key_id) as [k|]; [|done].
  by destruct (jwt_decode _ _ _ _ _ _) as [p|[]].
Qed.

Lemma resolve_eq token w :
  try_except_InvalidTokenError
    (bind (lift (jwt_get_unverified_header token)) (fun header =>
       let key_id := header !! "kid"%string in
       bind (not_in_public_keys key_id) (fun missing : bool =>
         if missing
         then bind load (fun _ =>
                bind (not_in_public_keys key_id) (fun still_missing : bool =>
                  if still_missing then ret None
                  else decode_with jwt_decode token key_id))
         else decode_with jwt_decode token key_id))) w
  = resolve token w.
Proof.
  unfold resolve, try_except_InvalidTokenError at 1, bind at 1, lift.
  destruct (jwt_get_unverified_header token) as [h|e]; [|by destruct e].
  cbv zeta. unfold bind at 1, not_in_public_keys at 1.
  destruct (cached w) as [d|]; [|done].
  case_bool_decide as Hd.
  - rewrite Hd. unfold bind at 1.
    pose proof (load_not_invalid_token w) as Hload.
    destruct (load w) as [[[]|e] w1]; [|by destruct e].
    unfold bind at 1, not_in_public_keys.
    destruct (cached w1) as [d1|]; [|done].
    case_bool_decide as Hd1.
    + by rewrite Hd1.
    + destruct (d1 !! (h !! "kid"%string)) eqn:E; [|done].
      rewrite <- decode_with_eq. reflexivity.
  - destruct (d !! (h !! "kid"%string)) eqn:E; [|done].
    rewrite <- decode_with_eq. reflexivity.
Qed.

Lemma verify_token_eq token w :
  verify token w =
  if cache_empty w
  then match load w with
       | (Raise e, w0) => (Raise e, w0)
       | (Ok _, w0) => resolve token w0
       end
  else resolve token w.
Proof.
  unfold verify_token, cache_empty.
  unfold try_except_InvalidTokenError, bind at 1 2, not_public_keys.
  pose proof (load_not_invalid_token w) as Hload.
  destruct (cached w) as [d|].
  - destruct (bool_decide (d = ∅)).
    + destruct (load w) as [[[]|e] w0]; [apply resolve_eq|].
      by destruct e.
    + apply resolve_eq.
  - destruct (load w) as [[[]|e] w0]; [apply resolve_eq|].
    by destruct e.
Qed.

(** ** Cache hits *)

Lemma cache_empty_false w d kid :
  cached w = Some d -> is_Some (d !! kid) -> cache_empty w = false.
Proof.
  unfold cache_empty. intros -> [k Hk]. apply bool_decide_eq_false.
  intros ->. by rewrite lookup_empty in Hk.
Qed.

Lemma cache_empty_nonempty w d :
  cached w = Some d -> d <> ∅ -> cache_empty w = false.
Proof. unfold cache_empty. intros -> ?. by apply bool_decide_eq_false. Qed.

Lemma finish_world r w : snd (finish r w) = w.
Proof. by destruct r as [|[]]. Qed.

(** On a hit the verifier goes straight to [jwt.decode] with the cached
    key, the configured client identifier and the realm URL. *)
Lemma verify_token_hit token h w d public_key :
  jwt_get_unverified_header token = Ok h ->
  cached w = Some d ->
  d !! (h !! "kid"%string) = Some public_key ->
  verify token w
  = finish (jwt_decode token public_key ["RS256"%string]
              (client_id (keycloak_auth w)) (base_url (keycloak_auth w))
              (clock w)) w.
Proof.
  intros Hh Hd Hk. rewrite verify_token_eq.
  rewrite (cache_empty_false w d (h !! "kid"%string)) by (done || by eexists).
  unfold resolve. rewrite Hh, Hd, Hk. unfold decoded. by rewrite Hd, Hk.
Qed.

Lemma decoded_world token key_id w : snd (decoded token key_id w) = w.
Proof.
  unfold decoded. destruct (cached w) as [d|]; [|done].
  destruct (d !! key_id); [apply finish_world|done].
Qed.

Lemma resolve_hit token h w d :
  jwt_get_unverified_header token = Ok h ->
  cached w = Some d ->
  is_Some (d !! (h !! "kid"%string)) ->
  snd (resolve token w) = w.
Proof.
  intros Hh Hd [k Hk]. unfold resolve. rewrite Hh, Hd, Hk. apply decoded_world.
Qed.

Lemma resolve_miss token h w d :
  jwt_get_unverified_header token = Ok h ->
  cached w = Some d ->
  d !! (h !! "kid"%string) = None ->
  requests_sent (snd (resolve token w)) = S (requests_sent w).
Proof.
  intros Hh Hd Hk. unfold resolve. rewrite Hh, Hd, Hk.
  destruct (load_frame w) as [Hsent _].
  destruct (load w) as [[[]|e] w1]; simpl in Hsent; [|done].
  destruct (cached w1) as [d1|]; [|done].
  destruct (d1 !! (h !! "kid"%string)); [|done].
  by rewrite decoded_world.
Qed.

(** ** Key rotation *)

Lemma key_set_lookup_listed keys kid :
  forallb well_formed keys = true ->
  is_Some (key_set keys !! kid) <-> kid ∈ kids keys.
Proof.
  intros Hwf. split.
  - intros Hsome. destruct (decide (kid ∈ kids keys)) as [|Hout]; [done|].
    unfold key_set in Hsome. rewrite stored_lookup_other in Hsome by done.
    rewrite lookup_empty in Hsome. by destruct Hsome.
  - by apply stored_lookup_listed.
Qed.

Lemma load_rotated_out kid w :
  rotated_out kid w ->
  exists keys,
    published (answer w) = Some keys
    /\ forallb well_formed keys = true
    /\ load w = (Ok tt, with_public_keys (key_set keys) (one_more_request w))
    /\ key_set keys !! kid = None
    /\ rotated_out kid (with_public_keys (key_set keys) (one_more_request w)).
Proof.
  intros Hrot. destruct (Hrot (requests_sent w)) as (keys & Hpub & Hwf & Hout); [lia|].
  exists keys. split_and!; [done..| | |].
  - rewrite (load_published w keys) by done. by rewrite stored_ok.
  - unfold key_set. rewrite stored_lookup_other by done. apply lookup_empty.
  - intros n Hn. simpl in *. apply Hrot. lia.
Qed.

Lemma resolve_rotated_out token h w d :
  jwt_get_unverified_header token = Ok h ->
  cached w = Some d ->
  d !! (h !! "kid"%string) = None ->
  rotated_out (h !! "kid"%string) w ->
  fst (resolve token w) = Ok None
  /\ requests_sent (snd (resolve token w)) = S (requests_sent w).
Proof.
  intros Hh Hd Hnone Hrot. unfold resolve. rewrite Hh, Hd, Hnone.
  destruct (load_rotated_out _ _ Hrot) as (keys & _ & _ & -> & Hk & _).
  rewrite with_public_keys_cached, Hk. done.
Qed.

(** ** Failed refreshes *)

(** C2 (amended). When the refresh fails before the response body is
    decoded (the request fails, the status is an error status, or the body
    is not JSON), [_load_public_keys] raises and leaves [_public_keys] as it
    was, and a token whose [kid] is cached is verified afterwards exactly as
    before, without a request. *)
Theorem failed_fetch_keeps_cache w :
  fails_before_parsing (answer w) = true ->
  (exists e, fst (load w) = Raise e)
  /\ cached (snd (load w)) = cached w
  /\ forall token h d public_key,
       jwt_get_unverified_header token = Ok h ->
       cached w = Some d ->
       d !! (h !! "kid"%string) = Some public_key ->
       fst (verify token (snd (load w))) = fst (verify token w)
       /\ requests_sent (snd (verify token (snd (load w))))
          = requests_sent (snd (load w)).
Proof.
  intros [e He]%load_fails_before_parsing. rewrite He. simpl.
  split; [by exists e|]. split; [done|].
  intros token h d public_key Hh Hd Hk.
  rewrite (verify_token_hit token h (one_more_request w) d public_key) by done.
  rewrite (verify_token_hit token h w d public_key) by done.
  rewrite finish_world. simpl. split; [|done].
  by destruct (jwt_decode _ _ _ _ _ _) as [|[]].
Qed.

(** C4. A successful refresh stores exactly the key set it fetched,
    whatever the dict held before; and once the provider has stopped
    publishing the key a token names, that token is rejected after the
    refresh, before [jwt.decode] is reached, even when the key was cached. *)
Theorem refresh_replaces_key_set w keys token h :
  published (answer w) = Some keys ->
  forallb well_formed keys = true ->
  jwt_get_unverified_header token = Ok h ->
  rotated_out (h !! "kid"%string) w ->
  let w' := with_public_keys (key_set keys) (one_more_request w) in
  load w = (Ok tt, w')
  /\ cached w' = Some (key_set keys)
  /\ (forall kid, is_Some (key_set keys !! kid) <-> kid ∈ kids keys)
  /\ (forall kid k, key_set keys !! kid = Some k ->
        exists key, key ∈ keys /\ jwk_kid key = Some kid /\ jwk_rsa key = Some k)
  /\ key_set keys !! (h !! "kid"%string) = None
  /\ fst (verify token w') = Ok None.
Proof.
  intros Hpub Hwf Hh Hrot w'.
  destruct (load_rotated_out _ _ Hrot) as (keys' & Hpub' & _ & Hload & Hk & Hrot').
  assert (keys' = keys) as -> by congruence. fold w' in Hload, Hrot'.
  split_and!; [done|done|intros kid; by apply key_set_lookup_listed| |done|].
  - intros kid k [Hk'|?]%stored_lookup_origin; [|done].
    by rewrite lookup_empty in Hk'.
  - rewrite verify_token_eq. destruct (cache_empty w') eqn:Hempty.
    + destruct (load_rotated_out _ _ Hrot') as (keys2 & _ & _ & -> & Hk2 & Hrot2).
      by apply (resolve_rotated_out token h _ (key_set keys2)).
    + by apply (resolve_rotated_out token h _ (key_set keys)).
Qed.

(** ** Requests per verification *)

(** C3 (amended). For a token whose header decodes, with key identifier
    [key_id]: no request is sent when [key_id] is cached; exactly one is
    sent when it is missing from a non-empty dict; on an empty or unset dict
    one request is sent before the header is looked at (a failure of that
    request ends the call), and a second one when the refreshed dict still
    lacks [key_id]; and once [key_id] is in the dict a further verification
    of a token naming it sends none. *)
Theorem requests_per_verification token h w :
  jwt_get_unverified_header token = Ok h ->
  let key_id := h !! "kid"%string in
  let w' := snd (verify token w) in
  (forall d, cached w = Some d -> is_Some (d !! key_id) ->
     requests_sent w' = requests_sent w)
  /\ (forall d, cached w = Some d -> d <> ∅ -> d !! key_id = None ->
       requests_sent w' = S (requests_sent w))
  /\ (forall w1 d1, cache_empty w = true ->
       load w = (Ok tt, w1) -> cached w1 = Some d1 ->
       (is_Some (d1 !! key_id) -> requests_sent w' = S (requests_sent w))
       /\ (d1 !! key_id = None -> requests_sent w' = S (S (requests_sent w))))
  /\ (forall e w1, cache_empty w = true ->
       load w = (Raise e, w1) ->
       verify token w = (Raise e, w1) /\ requests_sent w1 = S (requests_sent w))
  /\ (forall d' token2 h2, cached w' = Some d' -> is_Some (d' !! key_id) ->
       jwt_get_unverified_header token2 = Ok h2 -> h2 !! "kid"%string = key_id ->
       requests_sent (snd (verify token2 w')) = requests_sent w').
Proof.
  intros Hh key_id w'.
  assert (Hhit : forall token0 h0 w0 d0,
    jwt_get_unverified_header token0 = Ok h0 -> cached w0 = Some d0 ->
    is_Some (d0 !! (h0 !! "kid"%string)) ->
    snd (verify token0 w0) = w0).
  { intros token0 h0 w0 d0 Hh0 Hd0 Hk0. rewrite verify_token_eq.
    rewrite (cache_empty_false w0 d0 (h0 !! "kid"%string)) by done.
    by apply (resolve_hit token0 h0 w0 d0). }
  split_and!.
  - intros d Hd Hk. subst w'. by rewrite (Hhit token h w d).
  - intros d Hd Hne Hk. subst w'. rewrite verify_token_eq.
    rewrite (cache_empty_nonempty w d) by done.
    by apply (resolve_miss token h w d).
  - intros w1 d1 Hempty Hload Hd1. subst w'. rewrite verify_token_eq, Hempty, Hload.
    destruct (load_frame w) as [Hsent _]. rewrite Hload in Hsent. simpl in Hsent.
    split.
    + intros Hk. by rewrite (resolve_hit token h w1 d1).
    + intros Hk. rewrite (resolve_miss token h w1 d1) by done. by rewrite Hsent.
  - intros e w1 Hempty Hload. rewrite verify_token_eq, Hempty, Hload.
    destruct (load_frame w) as [Hsent _]. by rewrite Hload in Hsent.
  - intros d' token2 h2 Hd' Hk Hh2 Hkid. rewrite (Hhit token2 h2 w' d'); try done.
    by rewrite Hkid.
Qed.

(** C7 (amended). A token whose header has no [kid] is not rejected at
    the header: [None] is looked up in the dict like any key identifier.
    When neither the dict nor the provider lists a key under a null [kid]
    and the refreshes succeed, the verifier refreshes once (twice from an
    empty or unset dict) and then returns [None]. *)
Theorem missing_kid_is_looked_up token h w :
  jwt_get_unverified_header token = Ok h ->
  h !! "kid"%string = None ->
  (forall d, cached w = Some d -> d !! (None : pykey) = None) ->
  rotated_out None w ->
  fst (verify token w) = Ok None
  /\ requests_sent (snd (verify token w))
     = if cache_empty w then S (S (requests_sent w)) else S (requests_sent w).
Proof.
  intros Hh Hkid Hd Hrot. rewrite verify_token_eq.
  destruct (cache_empty w) eqn:Hempty.
  - destruct (load_rotated_out _ _ Hrot) as (keys & _ & _ & -> & Hk & Hrot').
    pose proof (resolve_rotated_out token h
      (with_public_keys (key_set keys) (one_more_request w)) (key_set keys)
      Hh eq_refl) as Hres.
    rewrite Hkid in Hres. by destruct (Hres Hk Hrot') as [-> ->].
  - unfold cache_empty in Hempty. destruct (cached w) as [d|] eqn:Hc; [|done].
    apply (resolve_rotated_out token h w d); rewrite ?Hkid; auto.
Qed.

(** ** Soundness of the verifier *)

Lemma decoded_valid token key_id w0 payload w' :
  decoded token key_id w0 = (Ok (Some payload), w') ->
  w' = w0
  /\ exists d public_key,
       cached w0 = Some d /\ d !! key_id = Some public_key
       /\ jwt_decode token public_key ["RS256"%string]
            (client_id (keycloak_auth w0)) (base_url (keycloak_auth w0))
            (clock w0) = Ok payload.
Proof.
  unfold decoded. destruct (cached w0) as [d|]; [|done].
  destruct (d !! key_id) as [k|] eqn:Hk; [|done].
  destruct (jwt_decode _ _ _ _ _ _) as [p|[]] eqn:Hdec; simpl; try done.
  intros [= -> ->]. split; [done|]. by exists d, k.
Qed.

Lemma resolve_valid token w0 payload w' :
  resolve token w0 = (Ok (Some payload), w') ->
  exists h d public_key,
    jwt_get_unverified_header token = Ok h
    /\ cached w' = Some d /\ d !! (h !! "kid"%string) = Some public_key
    /\ jwt_decode token public_key ["RS256"%string]
         (client_id (keycloak_auth w0)) (base_url (keycloak_auth w0))
         (clock w0) = Ok payload.
Proof.
  unfold resolve. destruct (jwt_get_unverified_header token) as [h|[]]; try done.
  destruct (cached w0) as [d|] eqn:Hd; [|done].
  destruct (d !! (h !! "kid"%string)) eqn:Hk.
  - intros (-> & d' & k & Hd' & Hk' & Hdec)%decoded_valid. by exists h, d', k.
  - destruct (load_frame w0) as (_ & Hclock & Hid & Hbase & _).
    destruct (load w0) as [[[]|e] w1]; [|done]. simpl in *.
    destruct (cached w1) as [d1|] eqn:Hd1; [|done].
    destruct (d1 !! (h !! "kid"%string)) eqn:Hk1; [|done].
    intros (-> & d' & k & Hd' & Hk' & Hdec)%decoded_valid.
    rewrite Hclock, Hid, Hbase in Hdec. by exists h, d', k.
Qed.

(** C1 (amended). [verify_token] returns a payload only when
    [jwt.decode] returned that payload for the token, called with the key
    that the dict holds, when the call returns, for the token's [kid], with
    RS256 as the only algorithm, the configured client identifier as
    audience, the realm URL as issuer, at the time of the call.  By what
    [jwt.decode] checks, the token then carries an RS256 signature that
    verifies under that key, its audience contains the client identifier,
    its issuer is the realm URL, and its [exp], if it has one, is later
    than the clock; no [exp] is required of it. *)
Theorem verify_token_sound token w payload w' :
  verify token w = (Ok (Some payload), w') ->
  exists h d public_key,
    jwt_get_unverified_header token = Ok h
    /\ cached w' = Some d
    /\ d !! (h !! "kid"%string) = Some public_key
    /\ jwt_decode token public_key ["RS256"%string]
         (client_id (keycloak_auth w)) (base_url (keycloak_auth w)) (clock w)
       = Ok payload
    /\ forall verifies,
         jwt_decode_contract jwt_decode verifies ->
         verifies token public_key
         /\ audience_contains payload (client_id (keycloak_auth w)) = true
         /\ issuer_is payload (base_url (keycloak_auth w)) = true
         /\ expired payload (clock w) = false.
Proof.
  rewrite verify_token_eq.
  assert (Hfrom : forall w0,
    clock w0 = clock w ->
    client_id (keycloak_auth w0) = client_id (keycloak_auth w) ->
    base_url (keycloak_auth w0) = base_url (keycloak_auth w) ->
    resolve token w0 = (Ok (Some payload), w') ->
    exists h d public_key,
      jwt_get_unverified_header token = Ok h
      /\ cached w' = Some d
      /\ d !! (h !! "kid"%string) = Some public_key
      /\ jwt_decode token public_key ["RS256"%string]
           (client_id (keycloak_auth w)) (base_url (keycloak_auth w)) (clock w)
         = Ok payload
      /\ forall verifies,
           jwt_decode_contract jwt_decode verifies ->
           verifies token public_key
           /\ audience_contains payload (client_id (keycloak_auth w)) = true
           /\ issuer_is payload (base_url (keycloak_auth w)) = true
           /\ expired payload (clock w) = false).
  { intros w0 Hclock Hid Hbase (h & d & k & Hh & Hd & Hk & Hdec)%resolve_valid.
    rewrite Hclock, Hid, Hbase in Hdec.
    exists h, d, k. split_and!; [done..|].
    intros verifies Hcontract. by apply (Hcontract _ _ _ _ _ _ Hdec). }
  destruct (cache_empty w); [|by apply Hfrom].
  destruct (load_frame w) as (_ & Hclock & Hid & Hbase & _).
  destruct (load w) as [[[]|e] w0]; [|done]. by apply Hfrom.
Qed.

(** ** The authentication gate *)

Lemma get_current_user_eq credentials w :
  current_user credentials w =
  match verify credentials w with
  | (Ok (Some payload), w') =>
      if bool_decide (payload = ∅) then (Raise unauthorized, w')
      else (Ok payload, w')
  | (Ok None, w') => (Raise unauthorized, w')
  | (Raise e, w') => (Raise e, w')
  end.
Proof.
  unfold get_current_user, bind, not_payload, raise, ret.
  destruct (verify credentials w) as [[[p|]|e] w']; try done.
  by destruct (bool_decide (p = ∅)).
Qed.

(** Each way a token can be refused ends in the same [None]. *)
Lemma malformed_token_rejected token w d :
  jwt_get_unverified_header token = Raise InvalidTokenError ->
  cached w = Some d -> d <> ∅ ->
  verify token w = (Ok None, w).
Proof.
  intros Hh Hd Hne. rewrite verify_token_eq, (cache_empty_nonempty w d) by done.
  unfold resolve. by rewrite Hh.
Qed.

Lemma decode_failure_rejected token h w d public_key :
  jwt_get_unverified_header token = Ok h ->
  cached w = Some d ->
  d !! (h !! "kid"%string) = Some public_key ->
  jwt_decode token public_key ["RS256"%string]
    (client_id (keycloak_auth w)) (base_url (keycloak_auth w)) (clock w)
  = Raise InvalidTokenError ->
  verify token w = (Ok None, w).
Proof.
  intros Hh Hd Hk Hdec. rewrite (verify_token_hit token h w d public_key) by done.
  by rewrite Hdec.
Qed.

(** Whenever [verify_token] returns [None], [get_current_user] raises the
    one [HTTPException] with status 401, detail "Invalid or expired token"
    and the header [WWW-Authenticate: Bearer]. *)
Theorem verification_failure_is_401 credentials w w' :
  verify credentials w = (Ok None, w') ->
  current_user credentials w
  = (Raise (HTTPException 401 "Invalid or expired token"
              (Some [("WWW-Authenticate", "Bearer")]%string)), w').
Proof. intros Hv. by rewrite get_current_user_eq, Hv. Qed.

(** C9. When [verify_token] returns the empty dict, [get_current_user]
    raises the same 401: the test is [not payload], which the empty dict
    satisfies. *)
Theorem empty_payload_is_401 credentials w w' :
  verify credentials w = (Ok (Some ∅), w') ->
  not_payload (Some ∅) = true
  /\ current_user credentials w
     = (Raise (HTTPException 401 "Invalid or expired token"
                 (Some [("WWW-Authenticate", "Bearer")]%string)), w').
Proof. intros Hv. split; [done|]. by rewrite get_current_user_eq, Hv. Qed.

(** ** The role gate *)

Lemma py_eq_str_true r v : py_eq_str r v = true <-> v = PStr r.
Proof.
  destruct v; simpl; try (split; [done|intros [=]]).
  rewrite String.eqb_eq. split; [by intros ->|by intros [= ->]].
Qed.

Lemma existsb_py_eq_str r (roles : list pyval) :
  existsb (py_eq_str r) roles = true <-> PStr r ∈ roles.
Proof.
  rewrite existsb_exists. setoid_rewrite py_eq_str_true.
  setoid_rewrite <- list_elem_of_In. split.
  - by intros (v & Hin & ->).
  - intros Hin. by exists (PStr r).
Qed.

Lemma require_role_list required_role (user : claims) roles :
  user_roles user = Ok (PList roles) ->
  require_role required_role user
  = if existsb (py_eq_str required_role) roles then Ok user
    else Raise (forbidden required_role).
Proof. unfold require_role. by intros ->. Qed.

Lemma role_gate_eq required_role credentials w :
  gate required_role credentials w =
  match current_user credentials w with
  | (Ok user, w') => (require_role required_role user, w')
  | (Raise e, w') => (Raise e, w')
  end.
Proof. unfold role_gate, bind, lift. by destruct (current_user _ _) as [[]]. Qed.


(** C10. A claim set with no [realm_access] entry, or whose
    [realm_access] is a dict with no [roles] entry, has the empty role
    list: the check raises the 403 for every required role, and no
    [KeyError]. *)
Theorem missing_roles_is_403 required_role (user : claims) :
  user !! "realm_access"%string = None
  \/ (exists realm_access,
        user !! "realm_access"%string = Some (PDict realm_access)
        /\ realm_access !! "roles"%string = None) ->
  user_roles user = Ok (PList [])
  /\ require_role required_role user
     = Raise (HTTPException 403
                ("Required role '" +:+ required_role +:+ "' not found") None).
Proof.
  intros Hmissing.
  assert (user_roles user = Ok (PList [])) as Hroles.
  { unfold user_roles, py_get.
    destruct Hmissing as [->|(realm_access & -> & Hnone)]; simpl.
    - by rewrite lookup_empty.
    - by rewrite Hnone. }
  split; [done|]. by rewrite (require_role_list required_role user []).
Qed.

(** ** Readers during a refresh *)

Lemma load_public_keys_preempted_eq n w :
  preempted n w =
  match fetch w with
  | (Raise e, w') => (Raise e, w')
  | (Ok keys, w') =>
      (fst (stored (take n keys) ∅), with_public_keys (key_set (take n keys)) w')
  end.
Proof.
  unfold _load_public_keys_preempted, bind at 1.
  rewrite fetch_jwks_eq.
  destruct (requests_get _ _) as [|r]; [done|].
  destruct (is_error_status (status r)); [done|].
  destruct (body r) as [jwks|]; [|done].
  destruct (jwks_keys jwks) as [keys|]; [|done].
  by rewrite (for_each_store_key (take n keys) ∅).
Qed.

(** One refresh, no other beside it: a reader that runs while the
    refreshing thread is between two iterations of the loop finds the dict
    built from the first [n] keys of the fetched list, the empty dict for
    [n = 0], and after the last iteration what the refresh returns with. *)
Theorem preempted_refresh_exposes_prefix w keys n :
  published (answer w) = Some keys ->
  cached (snd (preempted n w)) = Some (key_set (take n keys))
  /\ (forall kid k, key_set (take n keys) !! kid = Some k ->
        exists key, key ∈ keys /\ jwk_kid key = Some kid /\ jwk_rsa key = Some k)
  /\ ((length keys <= n)%nat -> preempted n w = load w).
Proof.
  intros Hpub. split_and!.
  - rewrite load_public_keys_preempted_eq, fetch_jwks_eq.
    unfold published, answer in Hpub.
    destruct (requests_get _ _) as [|r]; [done|].
    destruct (is_error_status (status r)); [done|].
    destruct (body r) as [jwks|]; [|done].
    simpl in Hpub. by rewrite Hpub.
  - intros kid k [Hk|(key & Hin & ? & ?)]%stored_lookup_origin.
    + by rewrite lookup_empty in Hk.
    + exists key. split; [|done]. by apply (subseteq_take n keys).
  - intros Hn. rewrite load_public_keys_preempted_eq, load_public_keys_eq.
    rewrite fetch_jwks_eq. unfold published, answer in Hpub.
    destruct (requests_get _ _) as [|r]; [done|].
    destruct (is_error_status (status r)); [done|].
    destruct (body r) as [jwks|]; [|done].
    simpl in Hpub. rewrite Hpub. by rewrite take_ge.
Qed.

(** ** Further properties of the verifier *)

Lemma finish_not_invalid_token r w : fst (finish r w) <> Raise InvalidTokenError.
Proof. by destruct r as [|[]]. Qed.

Lemma decoded_not_invalid_token token key_id w :
  fst (decoded token key_id w) <> Raise InvalidTokenError.
Proof.
  unfold decoded. destruct (cached w) as [d|]; [|done].
  destruct (d !! key_id); [apply finish_not_invalid_token|done].
Qed.

Lemma resolve_not_invalid_token token w :
  fst (resolve token w) <> Raise InvalidTokenError.
Proof.
  unfold resolve. destruct (jwt_get_unverified_header token) as [h|[]]; try done.
  destruct (cached w) as [d|]; [|done].
  destruct (d !! (h !! "kid"%string)); [apply decoded_not_invalid_token|].
  pose proof (load_not_invalid_token w) as Hload.
  destruct (load w) as [[[]|e] w1]; [|by simpl in *; intros [= ->]].
  destruct (cached w1) as [d1|]; [|done].
  destruct (d1 !! (h !! "kid"%string)); [apply decoded_not_invalid_token|done].
Qed.

(** The [try] block lets no [InvalidTokenError] out: neither
    [verify_token] nor [get_current_user] ever raises one, whatever the
    [jwt] functions and the provider do. *)
Theorem invalid_token_error_never_escapes token w :
  fst (verify token w) <> Raise InvalidTokenError
  /\ fst (current_user token w) <> Raise InvalidTokenError.
Proof.
  assert (fst (verify token w) <> Raise InvalidTokenError) as Hverify.
  { rewrite verify_token_eq. destruct (cache_empty w).
    - pose proof (load_not_invalid_token w) as Hload.
      destruct (load w) as [[[]|e] w0]; [apply resolve_not_invalid_token|].
      by simpl in *; intros [= ->].
    - apply resolve_not_invalid_token. }
  split; [done|]. rewrite get_current_user_eq.
  destruct (verify token w) as [[[p|]|e] w']; simpl in *.
  - by destruct (bool_decide (p = ∅)).
  - done.
  - by intros [= ->].
Qed.

Lemma load_cached_is_Some w :
  is_Some (cached w) -> is_Some (cached (snd (load w))).
Proof.
  intros Hsome. rewrite load_public_keys_eq, fetch_jwks_eq.
  destruct (requests_get _ _) as [|r]; [done|].
  destruct (is_error_status (status r)); [done|].
  destruct (body r) as [jwks|]; [|done].
  destruct (jwks_keys jwks); simpl; by eexists.
Qed.

Lemma resolve_world token w :
  snd (resolve token w) = w \/ snd (resolve token w) = snd (load w).
Proof.
  unfold resolve. destruct (jwt_get_unverified_header token) as [h|[]];
    try by left.
  destruct (cached w) as [d|]; [|by left].
  destruct (d !! (h !! "kid"%string)); [left; apply decoded_world|].
  right. destruct (load w) as [[[]|e] w1]; [|done]. simpl.
  destruct (cached w1) as [d1|]; [|done].
  destruct (d1 !! (h !! "kid"%string)); [apply decoded_world|done].
Qed.

(** The worlds in which a verification can end: the one it started in, or
    that one after one or two refreshes. *)
Lemma verify_token_world token w :
  snd (verify token w) = w
  \/ snd (verify token w) = snd (load w)
  \/ snd (verify token w) = snd (load (snd (load w))).
Proof.
  rewrite verify_token_eq. destruct (cache_empty w).
  - destruct (load w) as [[[]|e] w0] eqn:Hload; simpl; [|by right; left].
    destruct (resolve_world token w0) as [->| ->]; [by right; left|by right; right].
  - destruct (resolve_world token w) as [->| ->]; [by left|by right; left].
Qed.

(** Whatever the token and whatever the provider answers, one call of
    [verify_token] sends at most two requests, leaves the configuration
    and the clock alone, and never unsets a dict that was set. *)
Theorem verify_token_frame token w :
  let w' := snd (verify token w) in
  (requests_sent w <= requests_sent w' <= requests_sent w + 2)%nat
  /\ clock w' = clock w
  /\ client_id (keycloak_auth w') = client_id (keycloak_auth w)
  /\ base_url (keycloak_auth w') = base_url (keycloak_auth w)
  /\ certs_url (keycloak_auth w') = certs_url (keycloak_auth w)
  /\ (is_Some (cached w) -> is_Some (cached w')).
Proof.
  intros w'. subst w'.
  destruct (load_frame w) as (Hs1 & Hc1 & Hi1 & Hb1 & Hu1).
  destruct (load_frame (snd (load w))) as (Hs2 & Hc2 & Hi2 & Hb2 & Hu2).
  pose proof (load_cached_is_Some w) as Hk1.
  pose proof (load_cached_is_Some (snd (load w))) as Hk2.
  destruct (verify_token_world token w) as [->|[->| ->]].
  - split_and!; [lia|lia|done..].
  - split_and!; [lia|lia|done..].
  - split_and!; [lia|lia|congruence..|auto].
Qed.

(** A string that is not a token is answered with [None].  On a dict that
    holds keys nothing else happens; on an empty or unset dict the key set
    is fetched first, so the answer costs one request, and a failure of
    that request is raised instead. *)
Theorem malformed_token_cost token w :
  jwt_get_unverified_header token = Raise InvalidTokenError ->
  (cache_empty w = false -> verify token w = (Ok None, w))
  /\ (cache_empty w = true ->
       requests_sent (snd (verify token w)) = S (requests_sent w)
       /\ verify token w
          = match load w with
            | (Ok _, w1) => (Ok None, w1)
            | (Raise e, w1) => (Raise e, w1)
            end).
Proof.
  intros Hh. split; intros Hempty; rewrite verify_token_eq, Hempty.
  - unfold resolve. by rewrite Hh.
  - destruct (load_frame w) as [Hsent _].
    destruct (load w) as [[[]|e] w1]; simpl in *; [|done].
    unfold resolve. by rewrite Hh.
Qed.

(** While the dict is empty and the certificate endpoint cannot be used
    (no connection, an error status, a body that is not JSON),
    [get_current_user] raises the error of the request for every bearer
    token, valid or not; it is not the 401, and the dict stays empty, so
    the next call tries again. *)
Theorem unreachable_provider_is_not_401 w :
  cache_empty w = true ->
  fails_before_parsing (answer w) = true ->
  exists e,
    (e = ConnectionError \/ e = JSONDecodeError \/ exists st, e = HTTPError st)
    /\ (forall credentials,
          current_user credentials w = (Raise e, one_more_request w))
    /\ cache_empty (one_more_request w) = true.
Proof.
  intros Hempty Hfails.
  assert (exists e, (e = ConnectionError \/ e = JSONDecodeError
                     \/ exists st, e = HTTPError st)
                    /\ load w = (Raise e, one_more_request w)) as (e & He & Hload).
  { unfold fails_before_parsing, answer in Hfails.
    rewrite load_public_keys_eq, fetch_jwks_eq.
    destruct (requests_get _ _) as [|r]; [by eexists; split; [left|]|].
    destruct (is_error_status (status r)); [by eexists; split; [right; right; eexists|]|].
    destruct (body r) as [jwks|]; [done|by eexists; split; [right; left|]]. }
  exists e. split_and!; [done| |done].
  intros credentials. by rewrite get_current_user_eq, verify_token_eq, Hempty, Hload.
Qed.

(** ** Further properties of the refresh *)

Lemma stored_app good keys : forall d,
  forallb well_formed good = true ->
  stored (good ++ keys) d = stored keys (snd (stored good d)).
Proof.
  induction good as [|key good IH]; intros d Hwf; simpl; [done|].
  simpl in Hwf. apply andb_prop in Hwf as [Hkey Hwf]. unfold well_formed in Hkey.
  destruct (jwk_rsa key), (jwk_kid key); try done. by apply IH.
Qed.

(** The loop stops at the first entry that has no usable key or no
    ['kid']: the refresh raises, the entries before it are in the dict and
    the entries after it are not looked at. *)
Theorem refresh_stops_at_first_malformed_key w good bad rest :
  published (answer w) = Some (good ++ bad :: rest) ->
  forallb well_formed good = true ->
  well_formed bad = false ->
  exists e,
    (e = InvalidKeyError \/ e = KeyError "kid")
    /\ load w = (Raise e, with_public_keys (key_set good) (one_more_request w)).
Proof.
  intros Hpub Hgood Hbad. rewrite (load_published w _ Hpub).
  unfold key_set. rewrite (stored_app good (bad :: rest) ∅ Hgood). simpl.
  unfold well_formed in Hbad.
  destruct (jwk_rsa bad), (jwk_kid bad); try done; simpl.
  - exists (KeyError "kid"). by split; [right|].
  - exists InvalidKeyError. by split; [left|].
  - exists InvalidKeyError. by split; [left|].
Qed.

(** When a document lists a key identifier more than once, the last entry
    that carries it is the one the dict holds after the refresh; with
    distinct identifiers every listed key is found under its own. *)
Theorem last_listed_key_wins before key after kid k :
  forallb well_formed (before ++ key :: after) = true ->
  jwk_kid key = Some kid ->
  jwk_rsa key = Some k ->
  kid ∉ kids after ->
  key_set (before ++ key :: after) !! kid = Some k.
Proof.
  intros Hwf Hkid Hrsa Hafter. rewrite forallb_app in Hwf.
  apply andb_prop in Hwf as [Hbefore _].
  unfold key_set. rewrite (stored_app before (key :: after) ∅ Hbefore). simpl.
  rewrite Hkid, Hrsa. rewrite stored_lookup_other by done.
  apply lookup_insert_eq.
Qed.

(** A refresh that gets the same key list as the refresh before it leaves
    the dict as it found it and ends the same way. *)
Theorem refresh_is_idempotent w keys :
  published (answer w) = Some keys ->
  published (answer (snd (load w))) = Some keys ->
  cached (snd (load (snd (load w)))) = cached (snd (load w))
  /\ fst (load (snd (load w))) = fst (load w).
Proof.
  intros Hpub Hpub'. rewrite (load_published _ _ Hpub').
  by rewrite (load_published _ _ Hpub).
Qed.

(** ** Acceptance *)

(** A token whose key identifier is cached and which [jwt.decode] accepts
    under the cached key is answered with its payload as [jwt.decode]
    returned it, and the world is left as it was. *)
Theorem cached_key_token_accepted token h w d public_key payload :
  jwt_get_unverified_header token = Ok h ->
  cached w = Some d ->
  d !! (h !! "kid"%string) = Some public_key ->
  jwt_decode token public_key ["RS256"%string]
    (client_id (keycloak_auth w)) (base_url (keycloak_auth w)) (clock w)
  = Ok payload ->
  verify token w = (Ok (Some payload), w).
Proof.
  intros Hh Hd Hk Hdec. rewrite (verify_token_hit token h w d public_key) by done.
  by rewrite Hdec.
Qed.

(** Key rotation: a token that names a key the dict does not hold yet, but
    which the provider publishes, is accepted in the same call, after one
    refresh, when [jwt.decode] accepts it under the published key. *)
Theorem rotated_in_key_token_accepted token h w d keys public_key payload :
  jwt_get_unverified_header token = Ok h ->
  cached w = Some d ->
  d <> ∅ ->
  d !! (h !! "kid"%string) = None ->
  published (answer w) = Some keys ->
  forallb well_formed keys = true ->
  key_set keys !! (h !! "kid"%string) = Some public_key ->
  jwt_decode token public_key ["RS256"%string]
    (client_id (keycloak_auth w)) (base_url (keycloak_auth w)) (clock w)
  = Ok payload ->
  verify token w
  = (Ok (Some payload), with_public_keys (key_set keys) (one_more_request w)).
Proof.
  intros Hh Hd Hne Hk Hpub Hwf Hk' Hdec.
  rewrite verify_token_eq, (cache_empty_nonempty w d) by done.
  unfold resolve. rewrite Hh, Hd, Hk, (load_published w keys Hpub).
  rewrite stored_ok by done. simpl. rewrite Hk'.
  unfold decoded. simpl. rewrite Hk'. by rewrite Hdec.
Qed.

(** ** Further properties of the gates *)

Lemma get_current_user_ok credentials w payload w' :
  current_user credentials w = (Ok payload, w')
  <-> verify credentials w = (Ok (Some payload), w') /\ payload <> ∅.
Proof.
  rewrite get_current_user_eq.
  destruct (verify credentials w) as [[[p|]|e] w0].
  - case_bool_decide as Hp.
    + split; [done|]. intros [[= -> ->] ?]. done.
    + split; [by intros [= -> ->]|by intros [[= -> ->] _]].
  - split; [done|by intros [? _]].
  - split; [done|by intros [? _]].
Qed.

(** [get_current_user] returns a claim set exactly when [verify_token]
    returned that claim set and it is not empty; the world is the one
    [verify_token] left. *)
Theorem get_current_user_returns_verified_payload credentials w payload w' :
  current_user credentials w = (Ok payload, w')
  <-> verify credentials w = (Ok (Some payload), w') /\ payload <> ∅.
Proof. apply get_current_user_ok. Qed.

Lemma role_gate_ok required_role credentials w (user : claims) w' :
  gate required_role credentials w = (Ok user, w') ->
  verify credentials w = (Ok (Some user), w')
  /\ user <> ∅
  /\ exists roles,
       user_roles user = Ok roles
       /\ py_in_str required_role roles = Ok true
       /\ (forall l, roles = PList l -> PStr required_role ∈ l).
Proof.
  rewrite role_gate_eq.
  destruct (current_user credentials w) as [[u|e] w0] eqn:Huser; [|done].
  unfold require_role.
  destruct (user_roles u) as [roles|] eqn:Hroles; [|done].
  destruct (py_in_str required_role roles) as [[]|] eqn:Hin; try done.
  intros [= -> ->].
  apply get_current_user_ok in Huser as [Hv Hne].
  split_and!; [done..|]. exists roles. split_and!; [done..|].
  intros l ->. simpl in Hin. injection Hin as Hin. by apply existsb_py_eq_str.
Qed.

(** What a handler behind [require_role(r)] can rely on: the claim set it
    receives is the non-empty one [verify_token] returned, and [r] is in
    its role value; when that value is a list, [r] is one of its
    elements. *)
Theorem role_gate_sound required_role credentials w (user : claims) w' :
  gate required_role credentials w = (Ok user, w') ->
  verify credentials w = (Ok (Some user), w')
  /\ user <> ∅
  /\ exists roles,
       user_roles user = Ok roles
       /\ py_in_str required_role roles = Ok true
       /\ (forall l, roles = PList l -> PStr required_role ∈ l).
Proof. apply role_gate_ok. Qed.

(** ** The routes of main.py *)

#[local] Abbreviation get_model_route :=
  (route_get_model jwt_get_unverified_header jwt_decode requests_get).
#[local] Abbreviation admin_only_route :=
  (route_admin_only jwt_get_unverified_header jwt_decode requests_get).
#[local] Abbreviation create_model_route :=
  (route_create_model jwt_get_unverified_header jwt_decode requests_get).

(** [GET /models/{model_id}]: the token is checked before the model is
    looked up.  A refused token gets the 401 whatever the identifier, so
    the answer does not tell whether the model exists; and a model is
    returned only for ["model_1"] and only after [verify_token] returned a
    non-empty claim set. *)
Theorem get_model_authenticates_first model_id credentials w :
  (forall w', verify credentials w = (Ok None, w') ->
     get_model_route model_id credentials w
     = (Raise (HTTPException 401 "Invalid or expired token"
                 (Some [("WWW-Authenticate", "Bearer")]%string)), w'))
  /\ (forall model w', get_model_route model_id credentials w = (Ok model, w') ->
       model_id = "model_1"%string
       /\ exists user, verify credentials w = (Ok (Some user), w') /\ user <> ∅)
  /\ (forall user w', current_user credentials w = (Ok user, w') ->
       model_id <> "model_1"%string ->
       get_model_route model_id credentials w
       = (Raise (HTTPException 404 "Model not found" None), w')).
Proof.
  unfold route_get_model, bind, lift. split_and!.
  - intros w' Hv. by rewrite get_current_user_eq, Hv.
  - intros model w'.
    destruct (current_user credentials w) as [[u|e] w0] eqn:Huser; [|done].
    apply get_current_user_ok in Huser as [Hv Hne].
    unfold get_model. destruct (String.eqb_spec model_id "model_1"); [|done].
    intros [= <- <-]. split; [done|]. by exists u.
  - intros user w' -> Hne. unfold get_model.
    by destruct (String.eqb_spec model_id "model_1").
Qed.

(** [GET /admin-only] and [POST /models] answer with a body only for a
    token that [verify_token] accepted and whose role value contains
    ["admin"], respectively ["api_user"]; the body is the handler's, built
    from that token's claims. *)
Theorem role_routes_sound credentials w body w' :
  (admin_only_route credentials w = (Ok body, w') ->
     exists user roles,
       verify credentials w = (Ok (Some user), w')
       /\ user_roles user = Ok roles
       /\ py_in_str "admin" roles = Ok true
       /\ body = admin_only_endpoint user)
  /\ (forall model_data,
       create_model_route model_data credentials w = (Ok body, w') ->
       exists user roles,
         verify credentials w = (Ok (Some user), w')
         /\ user_roles user = Ok roles
         /\ py_in_str "api_user" roles = Ok true
         /\ body = create_model model_data user).
Proof.
  unfold route_admin_only, route_create_model, bind, ret. split.
  - destruct (gate "admin" credentials w) as [[u|e] w0] eqn:Hgate; [|done].
    intros [= <- <-].
    apply role_gate_ok in Hgate as (Hv & _ & roles & Hroles & Hin & _).
    by exists u, roles.
  - intros model_data.
    destruct (gate "api_user" credentials w) as [[u|e] w0] eqn:Hgate; [|done].
    intros [= <- <-].
    apply role_gate_ok in Hgate as (Hv & _ & roles & Hroles & Hin & _).
    by exists u, roles.
Qed.

(** ** The named failures and the 401 *)

#[local] Abbreviation started_in := (started_in requests_get).
#[local] Abbreviation verification_failure :=
  (verification_failure jwt_get_unverified_header jwt_decode requests_get).

Lemma stored_raises keys : forall d e,
  fst (stored keys d) = Raise e -> e = InvalidKeyError \/ e = KeyError "kid".
Proof.
  induction keys as [|key keys IH]; intros d e; simpl; [done|].
  destruct (jwk_rsa key), (jwk_kid key); simpl; eauto; intros [= <-]; eauto.
Qed.

Lemma load_raises_no_http_exception w e w1 :
  load w = (Raise e, w1) ->
  forall st detail headers, e <> HTTPException st detail headers.
Proof.
  rewrite load_public_keys_eq, fetch_jwks_eq.
  destruct (requests_get _ _) as [|r]; [by intros [= <- _]|].
  destruct (is_error_status (status r)); [by intros [= <- _]|].
  destruct (body r) as [jwks|]; [|by intros [= <- _]].
  destruct (jwks_keys jwks) as [keys|]; [|by intros [= <- _]].
  intros [= Hraise _]. by apply stored_raises in Hraise as [->| ->].
Qed.

Lemma resolve_failure token w0 w' :
  verification_failure token w0 w' -> resolve token w0 = (Ok None, w').
Proof.
  unfold resolve.
  intros [Hh|h d w1 d1 Hh Hd Hk Hload Hd1 Hk1|h d key Hh Hd Hk Hdec
         |h d w1 d1 key Hh Hd Hk Hload Hd1 Hk1 Hdec]; rewrite Hh; [done|..].
  - by rewrite Hd, Hk, Hload, Hd1, Hk1.
  - rewrite Hd, Hk. unfold decoded. by rewrite Hd, Hk, Hdec.
  - rewrite Hd, Hk, Hload, Hd1, Hk1. unfold decoded. by rewrite Hd1, Hk1, Hdec.
Qed.


End Properties.

(** ** Role values that are not lists *)

Lemma prefix_append r suffix : String.prefix r (r +:+ suffix) = true.
Proof.
  induction r as [|a r IH]; simpl; [by destruct suffix|].
  destruct (Ascii.ascii_dec a a); [done|congruence].
Qed.

Lemma prefix_split r : forall s,
  String.prefix r s = true -> exists suffix, s = r +:+ suffix.
Proof.
  induction r as [|a r IH]; intros s; simpl.
  - intros _. by exists s.
  - destruct s as [|b s]; simpl; [done|].
    destruct (Ascii.ascii_dec a b) as [->|]; [|done].
    intros [suffix ->]%IH. by exists suffix.
Qed.

Lemma index_prefix r s :
  String.prefix r s = true -> String.index 0 r s = Some 0%nat.
Proof.
  destruct s as [|b s]; simpl.
  - by destruct r.
  - by intros ->.
Qed.

Lemma index_append r suffix : forall before,
  exists n, String.index 0 r (before +:+ r +:+ suffix) = Some n.
Proof.
  induction before as [|c before [n IH]].
  - exists 0%nat. change (String.index 0 r (r +:+ suffix) = Some 0%nat).
    apply index_prefix, prefix_append.
  - change (String c before +:+ r +:+ suffix)
      with (String c (before +:+ r +:+ suffix)).
    unfold String.index; fold String.index.
    destruct (String.prefix r _); [by exists 0%nat|].
    rewrite IH. by exists (S n).
Qed.

Lemma index_split r : forall s n,
  String.index 0 r s = Some n ->
  exists before suffix, s = before +:+ r +:+ suffix.
Proof.
  induction s as [|b s IH]; intros n.
  - simpl. destruct r; [|done]. intros _. by exists ""%string, ""%string.
  - unfold String.index; fold String.index.
    destruct (String.prefix r (String b s)) eqn:Hprefix.
    + intros _. apply prefix_split in Hprefix as [suffix ->].
      by exists ""%string, suffix.
    + destruct (String.index 0 r s) as [m|] eqn:Hindex; [|done].
      intros _. destruct (IH m eq_refl) as (before & suffix & ->).
      by exists (String b before), suffix.
Qed.

(** When the role value of a claim set is a string instead of a list, the
    check is Python's substring test: [require_role(r)] lets the request
    through exactly when [r] occurs somewhere in that string. *)
Theorem string_roles_match_substrings required_role (user : claims) s :
  user_roles user = Ok (PStr s) ->
  require_role required_role user = Ok user
  <-> exists before suffix, s = before +:+ required_role +:+ suffix.
Proof.
  intros Hroles. unfold require_role. rewrite Hroles. simpl. unfold str_contains.
  destruct (String.index 0 required_role s) as [n|] eqn:Hindex.
  - split; [|done]. intros _. by apply (index_split required_role s n).
  - split; [done|]. intros (before & suffix & ->).
    destruct (index_append required_role suffix before) as [n Hn]. congruence.
Qed.

(** [require_role] never hands on a claim set other than the one it was
    given and raises no [HTTPException] other than its 403; a claim set
    whose [realm_access] is not an object makes it raise [AttributeError],
    and a role value that is [null], a boolean or a number makes it raise
    [TypeError]. *)
Theorem require_role_outcomes required_role (user : claims) :
  (forall u, require_role required_role user = Ok u -> u = user)
  /\ (forall st detail headers,
       require_role required_role user = Raise (HTTPException st detail headers) ->
       HTTPException st detail headers = forbidden required_role)
  /\ (forall v, user !! "realm_access"%string = Some v ->
       (forall d, v <> PDict d) ->
       require_role required_role user = Raise AttributeError)
  /\ (forall realm_access v,
       user !! "realm_access"%string = Some (PDict realm_access) ->
       realm_access !! "roles"%string = Some v ->
       v = PNone \/ (exists b, v = PBool b) \/ (exists z, v = PInt z) ->
       require_role required_role user = Raise TypeError).
Proof.
  assert (forall e, user_roles user = Raise e -> e = AttributeError) as Hget.
  { unfold user_roles, py_get. intros e.
    destruct (user !! "realm_access"%string) as [[]|]; simpl; congruence. }
  assert (forall v e, py_in_str required_role v = Raise e -> e = TypeError) as Hin.
  { intros [] e; simpl; congruence. }
  unfold require_role. split_and!.
  - intros u. destruct (user_roles user) as [roles|]; [|done].
    destruct (py_in_str required_role roles) as [[]|]; by intros [= <-].
  - intros st detail headers.
    destruct (user_roles user) as [roles|e] eqn:Hroles.
    + destruct (py_in_str required_role roles) as [[]|e] eqn:Hroles'; try done.
      * intros Heq. congruence.
      * intros [= ->]. by apply Hin in Hroles'.
    + intros [= ->]. by specialize (Hget _ eq_refl).
  - intros v Hv Hnot. unfold user_roles, py_get. rewrite Hv. simpl.
    destruct v; try done. by destruct (Hnot d).
  - intros realm_access v Hra Hv Hcases. unfold user_roles, py_get.
    rewrite Hra. simpl. rewrite Hv. simpl.
    by destruct Hcases as [->|[[b ->]|[z ->]]].
Qed.

(** ** Readers and overlapping refreshes *)

Section Overlap.

Context {PublicKey : Type}.

Variable requests_get : string -> nat -> http_outcome PublicKey.

#[local] Abbreviation cached w := (_public_keys (keycloak_auth w)).
#[local] Abbreviation fetch := (fetch_jwks requests_get).
#[local] Abbreviation load := (_load_public_keys requests_get).
#[local] Abbreviation preempted := (_load_public_keys_preempted requests_get).
#[local] Abbreviation answer := (answer requests_get).
#[local] Abbreviation get_jwks := (get_jwks requests_get).
#[local] Abbreviation step := (step requests_get).
#[local] Abbreviation run := (run requests_get).
#[local] Abbreviation fetched_between := (fetched_between requests_get).
#[local] Abbreviation thread_ok := (thread_ok requests_get).
#[local] Abbreviation only_fetched := (only_fetched requests_get).
#[local] Abbreviation run_invariant := (run_invariant requests_get).

Implicit Types (w : world PublicKey) (t : refresher PublicKey)
  (threads : list (refresher PublicKey)) (key : jwk PublicKey)
  (keys : list (jwk PublicKey)) (d : gmap pykey PublicKey).

(** *** The steps, in closed form *)

Lemma get_jwks_eq w :
  get_jwks w =
  match requests_get (certs_url (keycloak_auth w)) (requests_sent w) with
  | ConnectionFailed => (Raise ConnectionError, one_more_request w)
  | Responded r =>
      if is_error_status (status r)
      then (Raise (HTTPError (status r)), one_more_request w)
      else match body r with
           | None => (Raise JSONDecodeError, one_more_request w)
           | Some jwks => (Ok jwks, one_more_request w)
           end
  end.
Proof.
  unfold get_jwks, bind, self, get, raise_for_status, json, raise, ret.
  destruct (requests_get _ _) as [|r]; [done|].
  destruct (is_error_status (status r)); [done|].
  by destruct (body r).
Qed.

Lemma reset_and_keys_eq (jwks : jwks_document PublicKey) w :
  reset_and_keys jwks w =
  match jwks_keys jwks with
  | None => (Raise (KeyError "keys"), with_public_keys ∅ w)
  | Some keys => (Ok keys, with_public_keys ∅ w)
  end.
Proof.
  unfold reset_and_keys, bind, set_public_keys, getitem_keys, raise, ret.
  by destruct (jwks_keys jwks).
Qed.

Lemma store_key_eq key w :
  store_key key w =
  match jwk_rsa key, jwk_kid key, cached w with
  | None, _, _ => (Raise InvalidKeyError, w)
  | Some _, None, _ => (Raise (KeyError "kid"), w)
  | Some _, Some _, None => (Raise TypeError, w)
  | Some k, Some kid, Some d => (Ok tt, with_public_keys (<[kid := k]> d) w)
  end.
Proof.
  unfold store_key, bind, from_jwk, getitem_kid, setitem_public_keys,
    set_public_keys, raise, ret.
  by destruct (jwk_rsa key), (jwk_kid key), (cached w).
Qed.

(** The two halves make up lines 167-173. *)
Lemma fetch_jwks_split w : fetch w = bind get_jwks reset_and_keys w.
Proof.
  unfold bind at 1. rewrite get_jwks_eq, fetch_jwks_eq.
  destruct (requests_get _ _) as [|r]; [done|].
  destruct (is_error_status (status r)); [done|].
  destruct (body r) as [jwks|]; [|done].
  by rewrite reset_and_keys_eq.
Qed.

(** *** One refresher alone *)

Lemma run_finished n w : run (replicate n 0%nat) [Finished] w = ([Finished], w).
Proof. induction n as [|n IH]; [done|]. simpl. apply IH. Qed.

Lemma run_storing n : forall keys w,
  snd (run (replicate n 0%nat) [Storing keys] w)
  = snd (for_each (take n keys) store_key w).
Proof.
  induction n as [|n IH]; intros keys w; [done|].
  destruct keys as [|key keys]; simpl.
  - by rewrite run_finished.
  - unfold bind at 1. destruct (store_key key w) as [[[]|e] w1]; simpl.
    + apply IH.
    + by rewrite run_finished.
Qed.

(** A refresher that runs alone for [2 + n] steps leaves the object as the
    refresh that is switched out after [n] iterations of its loop. *)
Lemma run_alone n w :
  snd (run (replicate (2 + n) 0%nat) [Starting] w) = snd (preempted n w).
Proof.
  rewrite load_public_keys_preempted_eq, fetch_jwks_eq.
  simpl. rewrite get_jwks_eq.
  destruct (requests_get _ _) as [|r]; simpl; [by rewrite run_finished|].
  destruct (is_error_status (status r)); simpl; [by rewrite run_finished|].
  destruct (body r) as [jwks|]; simpl; [|by rewrite run_finished].
  rewrite reset_and_keys_eq.
  destruct (jwks_keys jwks) as [keys|]; simpl; [|by rewrite run_finished].
  rewrite run_storing.
  rewrite (for_each_store_key (take n keys) ∅) by done.
  by rewrite with_public_keys_twice.
Qed.

(** *** The invariant *)

Lemma fetched_between_mono w w' w'' kid k :
  (requests_sent w' <= requests_sent w'')%nat ->
  fetched_between w w' kid k -> fetched_between w w'' kid k.
Proof.
  intros Hle (i & keys & key & Hi & Hrest). exists i, keys, key.
  split; [lia|done].
Qed.

Lemma thread_ok_mono w w' w'' t :
  (requests_sent w' <= requests_sent w'')%nat ->
  thread_ok w w' t -> thread_ok w w'' t.
Proof.
  intros Hle. destruct t as [|jwks|pending|]; simpl; try done.
  - intros (i & r & Hi & Hrest). exists i, r. split; [lia|done].
  - intros (i & keys & Hi & Hrest). exists i, keys. split; [lia|done].
Qed.

Lemma only_fetched_mono w w' w'' :
  cached w'' = cached w' ->
  (requests_sent w' <= requests_sent w'')%nat ->
  only_fetched w w' -> only_fetched w w''.
Proof.
  intros Hsame Hle (d & Hd & Hentries). exists d. split; [congruence|].
  intros kid k Hk. eapply fetched_between_mono; eauto.
Qed.

(** A step that replaces thread [i] by [t'] and the world by [w'']. *)
Lemma run_invariant_update w threads w' i t' w'' :
  run_invariant w threads w' ->
  certs_url (keycloak_auth w'') = certs_url (keycloak_auth w') ->
  (requests_sent w' <= requests_sent w'')%nat ->
  thread_ok w w'' t' ->
  (cached w'' = cached w' /\ (not_storing t' \/ only_fetched w w'))
  \/ only_fetched w w'' ->
  run_invariant w (<[i := t']> threads) w''.
Proof.
  intros (Hurl & Hsent & Hthreads & Hdict) Hurl' Hle Ht' Hdict'.
  split_and!; [congruence|lia| |].
  - apply Forall_insert; [|done].
    eapply Forall_impl; [exact Hthreads|]. intros t. by apply thread_ok_mono.
  - destruct Hdict' as [[Hsame Hcase]|Hfetched]; [|by right].
    destruct Hdict as [[Hold Hnone]|Hfetched].
    + destruct Hcase as [Hidle|Hfetched].
      * left. split; [congruence|]. by apply Forall_insert.
      * right. by apply (only_fetched_mono w w' w'').
    + right. by apply (only_fetched_mono w w' w'').
Qed.

Lemma step_invariant w threads w' i t :
  run_invariant w threads w' ->
  threads !! i = Some t ->
  run_invariant w (<[i := fst (step t w')]> threads) (snd (step t w')).
Proof.
  intros Hinv Hi.
  pose proof Hinv as (Hurl & Hsent & Hthreads & Hdict).
  pose proof (Forall_lookup_1 _ _ _ _ Hthreads Hi) as Ht.
  destruct t as [|jwks|[|key pending]|]; simpl.
  - (* the request *)
    rewrite get_jwks_eq, Hurl.
    assert (forall t', not_storing t' -> thread_ok w (one_more_request w') t' ->
              run_invariant w (<[i := t']> threads) (one_more_request w'))
      as Hrequest.
    { intros t' Hidle Ht'.
      apply (run_invariant_update w threads w'); simpl; auto. }
    destruct (requests_get _ _) as [|r] eqn:Hanswer; simpl; [by apply Hrequest|].
    destruct (is_error_status (status r)) eqn:Hstatus; simpl; [by apply Hrequest|].
    destruct (body r) as [jwks|] eqn:Hbody; simpl; [|by apply Hrequest].
    apply Hrequest; [done|]. simpl.
    exists (requests_sent w'), r. split_and!; [lia|lia|done..].
  - (* the reset *)
    rewrite reset_and_keys_eq.
    assert (only_fetched w (with_public_keys ∅ w')) as Hempty.
    { exists ∅. split; [done|]. intros kid k Hk. by rewrite lookup_empty in Hk. }
    destruct Ht as (n & r & Hn & Hanswer & Hstatus & Hbody).
    destruct (jwks_keys jwks) as [keys|] eqn:Hkeys; simpl;
      apply (run_invariant_update w threads w'); simpl; auto.
    exists n, keys. split_and!; [lia|lia| |done].
    unfold published. by rewrite Hanswer, Hstatus, Hbody.
  - (* the loop is over *)
    apply (run_invariant_update w threads w'); simpl; auto.
  - (* one iteration of the loop *)
    assert (only_fetched w w') as Hfetched.
    { destruct Hdict as [[_ Hnone]|]; [|done].
      by destruct (Forall_lookup_1 _ _ _ _ Hnone Hi). }
    destruct Ht as (n & keys & Hn & Hpublished & Hpending).
    rewrite store_key_eq.
    destruct (jwk_rsa key) as [k|] eqn:Hrsa; simpl;
      [|apply (run_invariant_update w threads w'); simpl; auto].
    destruct (jwk_kid key) as [kid|] eqn:Hkid; simpl;
      [|apply (run_invariant_update w threads w'); simpl; auto].
    destruct Hfetched as (d & Hd & Hentries). rewrite Hd. simpl.
    apply (run_invariant_update w threads w'); simpl; auto.
    + exists n, keys. split_and!; [lia|lia|done|].
      intros key' Hin. apply Hpending. apply elem_of_cons. by right.
    + right. exists (<[kid := k]> d). split; [done|].
      intros kid' k' Hk'. destruct (decide (kid = kid')) as [<-|Hne].
      * rewrite lookup_insert_eq in Hk'. injection Hk' as <-.
        unfold fetched_between. exists n, keys, key. simpl.
        split_and!; [lia|lia|done| |done..].
        apply Hpending. apply elem_of_cons. by left.
      * rewrite lookup_insert_ne in Hk' by done. by apply Hentries.
  - (* done *)
    apply (run_invariant_update w threads w'); simpl; auto.
Qed.

Lemma run_invariant_run w schedule : forall threads w',
  run_invariant w threads w' ->
  run_invariant w (fst (run schedule threads w')) (snd (run schedule threads w')).
Proof.
  induction schedule as [|i schedule IH]; intros threads w' Hinv; [done|].
  simpl. destruct (threads !! i) as [t|] eqn:Hi; [|by apply IH].
  pose proof (step_invariant w threads w' i t Hinv Hi) as Hstep.
  destruct (step t w') as [t' w'']. by apply IH.
Qed.

(** C8 (amended). Any number of refreshes, started at any time and
    interleaved in any way: what a lookup finds in [_public_keys] at any
    point is the dict as it was before them, or a dict every entry of
    which was listed in a key set that one of them fetched: an entry that
    none of them fetched is found only in the dict exactly as it was before
    them.  The replacement is no atomic swap: after [m] iterations of a
    refresh that runs alone, a lookup finds the first [m] keys of the
    fetched list and no more. *)
Theorem overlapping_refreshes_expose_fetched_keys schedule n w :
  let w' := snd (run schedule (replicate n Starting) w) in
  (cached w' = cached w
   \/ exists d, cached w' = Some d
        /\ forall kid k, d !! kid = Some k -> fetched_between w w' kid k)
  /\ (forall m keys,
        published (answer w) = Some keys ->
        cached (snd (run (replicate (2 + m) 0%nat) [Starting] w))
        = Some (key_set (take m keys))).
Proof.
  intros w'. split.
  - assert (run_invariant w (replicate n Starting) w) as Hinit.
    { split_and!; [done|lia| |left; split; [done|]]; by apply Forall_replicate. }
    destruct (run_invariant_run w schedule _ _ Hinit) as (_ & _ & _ & Hdict).
    destruct Hdict as [[Hsame _]|Hfetched]; [by left|by right].
  - intros m keys Hpublished. rewrite run_alone.
    by destruct (preempted_refresh_exposes_prefix requests_get w keys m Hpublished).
Qed.

End Overlap.

(** ** The verifier and the network *)

Section Network.

Context {PublicKey : Type}.

Variable jwt_get_unverified_header : string -> result header.
Variable jwt_decode :
  string -> PublicKey -> list string -> string -> string -> Z -> result claims.

Implicit Types (w : world PublicKey)
  (requests_get : string -> nat -> http_outcome PublicKey).

Lemma load_public_keys_ext requests_get requests_get' w :
  (forall n, requests_get (certs_url (keycloak_auth w)) n
             = requests_get' (certs_url (keycloak_auth w)) n) ->
  _load_public_keys requests_get w = _load_public_keys requests_get' w.
Proof.
  intros Hsame. rewrite !load_public_keys_eq, !fetch_jwks_eq. by rewrite Hsame.
Qed.

Lemma resolve_ext requests_get requests_get' token w :
  (forall n, requests_get (certs_url (keycloak_auth w)) n
             = requests_get' (certs_url (keycloak_auth w)) n) ->
  resolve jwt_get_unverified_header jwt_decode requests_get token w
  = resolve jwt_get_unverified_header jwt_decode requests_get' token w.
Proof.
  intros Hsame. unfold resolve.
  by rewrite (load_public_keys_ext requests_get requests_get' w Hsame).
Qed.

(** The only address [verify_token] sends requests to is [certs_url]: two
    networks that answer alike there give the same result and the same
    final state, whatever they answer elsewhere. *)
Theorem verifier_only_contacts_certs_url requests_get requests_get' token w :
  (forall n, requests_get (certs_url (keycloak_auth w)) n
             = requests_get' (certs_url (keycloak_auth w)) n) ->
  verify_token jwt_get_unverified_header jwt_decode requests_get token w
  = verify_token jwt_get_unverified_header jwt_decode requests_get' token w.
Proof.
  intros Hsame. rewrite !verify_token_eq.
  rewrite (load_public_keys_ext requests_get requests_get' w Hsame).
  destruct (cache_empty w); [|by apply resolve_ext].
  destruct (load_frame requests_get' w) as (_ & _ & _ & _ & Hurl).
  destruct (_load_public_keys requests_get' w) as [[[]|e] w0]; [|done].
  apply resolve_ext. simpl in Hurl. by rewrite Hurl.
Qed.

End Network.

(** ** The constructor and the token endpoint *)

Section ClientProperties.

Context {PublicKey : Type}.

Variable urljoin : string -> string -> string.

Implicit Types (environ : gmap string string) (self : KeycloakClient PublicKey).

(** An argument that is the empty string counts as not given, in each
    position; arguments that are not empty make the object independent of
    the environment; and the object starts without a key dict. *)
Theorem init_arguments environ :
  (forall a b c, __init__ (PublicKey := PublicKey) environ urljoin (Some ""%string) a b c
                 = __init__ environ urljoin None a b c)
  /\ (forall a b c, __init__ (PublicKey := PublicKey) environ urljoin a (Some ""%string) b c
                    = __init__ environ urljoin a None b c)
  /\ (forall a b c, __init__ (PublicKey := PublicKey) environ urljoin a b (Some ""%string) c
                    = __init__ environ urljoin a b None c)
  /\ (forall a b c, __init__ (PublicKey := PublicKey) environ urljoin a b c (Some ""%string)
                    = __init__ environ urljoin a b c None)
  /\ (forall environ' s r c k,
        s <> ""%string -> r <> ""%string -> c <> ""%string -> k <> ""%string ->
        __init__ (PublicKey := PublicKey) environ urljoin (Some s) (Some r) (Some c) (Some k)
        = __init__ environ' urljoin (Some s) (Some r) (Some c) (Some k))
  /\ (forall s r c k,
        _public_keys (verifier (__init__ (PublicKey := PublicKey)
                                  environ urljoin s r c k)) = None).
Proof.
  split_and!; try done.
  intros environ' s r c k Hs Hr Hc Hk. unfold __init__, or_str, or_opt.
  apply String.eqb_neq in Hs, Hr, Hc, Hk. by rewrite Hs, Hr, Hc, Hk.
Qed.

Variable jwt_get_unverified_header : string -> result header.
Variable jwt_decode :
  string -> PublicKey -> list string -> string -> string -> Z -> result claims.
Variable requests_get : string -> nat -> http_outcome PublicKey.

(** The first verification on a newly constructed object fetches the key
    set before it looks at the token: it sends one request or two,
    whatever the token is. *)
Theorem new_client_fetches_first environ s r c k t token :
  let w := {| keycloak_auth := verifier (__init__ environ urljoin s r c k);
              clock := t; requests_sent := 0 |} in
  let sent :=
    requests_sent
      (snd (verify_token jwt_get_unverified_header jwt_decode requests_get token w)) in
  (1 <= sent <= 2)%nat.
Proof.
  intros w sent. subst sent. rewrite verify_token_eq.
  assert (cache_empty w = true) as -> by done.
  destruct (load_frame requests_get w) as [Hsent _].
  destruct (_load_public_keys requests_get w) as [[[]|e] w0] eqn:Hload;
    simpl in Hsent; [|simpl; lia].
  destruct (resolve_world jwt_get_unverified_header jwt_decode requests_get token w0)
    as [->| ->]; [lia|].
  destruct (load_frame requests_get w0) as [Hsent' _]. lia.
Qed.

Variable requests_post : string -> gmap string pyval -> http_reply.
Variable requests_get_with_headers : string -> gmap string string -> http_reply.

Lemma checked_json_ok reply v :
  checked_json reply = Ok v
  <-> exists st, reply = Replied st (Some v) /\ is_error_status st = false.
Proof.
  unfold checked_json. destruct reply as [|st [body|]].
  - split; [done|by intros (? & ? & _)].
  - destruct (is_error_status st) eqn:Hst.
    + split; [done|]. intros (st' & [= -> ->] & ?). congruence.
    + split; [intros [= ->]; by exists st|by intros (st' & [= -> ->] & _)].
  - destruct (is_error_status st); (split; [done|by intros (? & ? & _)]).
Qed.

(** A value returned by one of the three grant methods is the JSON body of
    a response without error status to a request at [token_url] whose form
    names the grant and carries this client's identifier and secret
    together with the grant's own fields; a value returned by
    [get_user_info] is such a body from [userinfo_url], asked for with the
    access token as bearer. *)
Theorem token_responses_come_from_the_provider self v :
  (get_client_credentials_token requests_post self = Ok v ->
     exists data st,
       requests_post (token_url self) data = Replied st (Some v)
       /\ is_error_status st = false
       /\ data !! "grant_type"%string = Some (PStr "client_credentials")
       /\ data !! "client_id"%string = Some (PStr (client_id (verifier self)))
       /\ data !! "client_secret"%string = Some (py_opt (client_secret self)))
  /\ (forall code redirect_uri,
        exchange_authorization_code requests_post self code redirect_uri = Ok v ->
        exists data st,
          requests_post (token_url self) data = Replied st (Some v)
          /\ is_error_status st = false
          /\ data !! "grant_type"%string = Some (PStr "authorization_code")
          /\ data !! "client_id"%string = Some (PStr (client_id (verifier self)))
          /\ data !! "client_secret"%string = Some (py_opt (client_secret self))
          /\ data !! "code"%string = Some (PStr code)
          /\ data !! "redirect_uri"%string = Some (PStr redirect_uri))
  /\ (forall token,
        refresh_token requests_post self token = Ok v ->
        exists data st,
          requests_post (token_url self) data = Replied st (Some v)
          /\ is_error_status st = false
          /\ data !! "grant_type"%string = Some (PStr "refresh_token")
          /\ data !! "client_id"%string = Some (PStr (client_id (verifier self)))
          /\ data !! "client_secret"%string = Some (py_opt (client_secret self))
          /\ data !! "refresh_token"%string = Some (PStr token))
  /\ (forall access_token,
        get_user_info requests_get_with_headers self access_token = Ok v ->
        exists headers st,
          requests_get_with_headers (userinfo_url self) headers
          = Replied st (Some v)
          /\ is_error_status st = false
          /\ headers !! "Authorization"%string
             = Some ("Bearer " +:+ access_token)%string).
Proof.
  split_and!.
  - intros (st & Hreply & Hst)%checked_json_ok.
    eexists _, st. split_and!; [exact Hreply|done|reflexivity..].
  - intros code redirect_uri (st & Hreply & Hst)%checked_json_ok.
    eexists _, st. split_and!; [exact Hreply|done|reflexivity..].
  - intros token (st & Hreply & Hst)%checked_json_ok.
    eexists _, st. split_and!; [exact Hreply|done|reflexivity..].
  - intros access_token (st & Hreply & Hst)%checked_json_ok.
    eexists _, st. split_and!; [exact Hreply|done|reflexivity].
Qed.

(** A 4xx or 5xx answer of the token endpoint makes each grant method
    raise [HTTPError] with that status; the body is not read, not even a
    JSON body that looks like a token response. *)
Theorem token_endpoint_errors_are_raised self st body :
  is_error_status st = true ->
  (forall data, requests_post (token_url self) data = Replied st body) ->
  get_client_credentials_token requests_post self = Raise (HTTPError st)
  /\ (forall code redirect_uri,
        exchange_authorization_code requests_post self code redirect_uri
        = Raise (HTTPError st))
  /\ (forall token, refresh_token requests_post self token = Raise (HTTPError st)).
Proof.
  intros Hst Hreply.
  unfold get_client_credentials_token, exchange_authorization_code, refresh_token.
  split_and!; intros; rewrite Hreply; unfold checked_json; by rewrite Hst.
Qed.

End ClientProperties.

(** * The scenario, run *)

(** The symbolic PyJWT honours the contract of [jwt.decode]. *)
Lemma symbolic_decode_contract `{EqDecision PublicKey}
    (issued_tokens : list (SymbolicJwt.issued (PublicKey := PublicKey))) :
  jwt_decode_contract (SymbolicJwt.decode issued_tokens)
                      (SymbolicJwt.verifies issued_tokens).
Proof.
  intros token public_key audience issuer t payload.
  unfold SymbolicJwt.decode, SymbolicJwt.verifies.
  destruct (SymbolicJwt.parse issued_tokens token) as [i|]; [|done].
  destruct (SymbolicJwt.algorithm_allowed _ _ && _) eqn:Hsigned; [|done].
  destruct (exp_claim (SymbolicJwt.jws_payload i)); [|done].
  destruct (negb _ && _ && _) eqn:Hclaims; [|done]. intros [= <-].
  apply andb_prop in Hsigned as [_ Hkey].
  apply andb_prop in Hclaims as [[Hexp Hiss]%andb_prop Haud].
  split_and!; try done.
  - exists i. split; [done|]. by eapply bool_decide_eq_true.
  - by apply negb_true_iff.
Qed.

Import Scenario.

Lemma verify_token_sound_witness :
  exists (h : header) (d : gmap pykey nat) (public_key : nat),
    header_of "tokenA" = Ok h
    /\ _public_keys (keycloak_auth (refreshed cold)) = Some d
    /\ d !! (h !! "kid"%string) = Some public_key
    /\ decode "tokenA" public_key ["RS256"%string]
         "3dgs-api-service" "http://localhost:8080/realms/caretwin/" 1000
       = Ok user42
    /\ forall verifies,
         jwt_decode_contract decode verifies ->
         verifies "tokenA" public_key
         /\ audience_contains user42 "3dgs-api-service" = true
         /\ issuer_is user42 "http://localhost:8080/realms/caretwin/" = true
         /\ expired user42 1000 = false.
Proof.
  apply (verify_token_sound header_of decode provider "tokenA" cold user42
           (refreshed cold)).
  vm_compute. reflexivity.
Defined.

(** The token issued for another audience carries a signature that
    verifies under the cached key [k1], and is refused. *)
Example other_audience_rejected :
  SymbolicJwt.verifies tokens "tokenOtherAudience" 11%nat
  /\ fst (verify "tokenOtherAudience" (refreshed cold)) = Ok None.
Proof.
  split; [|vm_compute; reflexivity].
  eexists. split; [vm_compute; reflexivity|reflexivity].
Qed.

Lemma provider_withdrew_k3 w : rotated_out provider (Some "k3"%string) w.
Proof.
  intros n _. exists [k1; k2]. split_and!; [reflexivity..|].
  vm_compute. intros Hin.
  apply elem_of_cons in Hin as [[=]|Hin].
  apply elem_of_cons in Hin as [[=]|Hin].
  by apply elem_of_nil in Hin.
Qed.

Lemma provider_has_no_null_kid w : rotated_out provider None w.
Proof.
  intros n _. exists [k1; k2]. split_and!; [reflexivity..|].
  vm_compute. intros Hin.
  apply elem_of_cons in Hin as [[=]|Hin].
  apply elem_of_cons in Hin as [[=]|Hin].
  by apply elem_of_nil in Hin.
Qed.

(** ** C2 *)

Lemma failed_fetch_keeps_cache_witness :
  fails_before_parsing (answer provider_down warm) = true
  /\ (exists e, fst (_load_public_keys provider_down warm) = Raise e)
  /\ _public_keys (keycloak_auth (snd (_load_public_keys provider_down warm)))
     = _public_keys (keycloak_auth warm).
Proof.
  split; [reflexivity|].
  pose proof (failed_fetch_keeps_cache header_of decode provider_down warm eq_refl)
    as (Hraise & Hkeep & _).
  split; [exact Hraise|exact Hkeep].
Defined.

(** A 200 response whose JSON object has no ['keys'] member: the refresh
    raises [KeyError] and the key that was cached is gone. *)
Lemma malformed_response_clears_cache :
  let w := warm in
  let r := _load_public_keys provider_without_keys w in
  _public_keys (keycloak_auth w) = Some {[ Some "k1"%string := 11%nat ]}
  /\ fst r = Raise (KeyError "keys")
  /\ _public_keys (keycloak_auth (snd r)) = Some ∅
  /\ _public_keys (keycloak_auth (snd r)) <> _public_keys (keycloak_auth w).
Proof.
  split_and!; [reflexivity..|].
  intros Heq. apply (f_equal (holds "k1")) in Heq.
  vm_compute in Heq. discriminate.
Qed.

(** ** C3 *)

Lemma requests_per_verification_witness :
  header_of "tokenK3" = Ok (rs256 (Some "k3"%string))
  /\ requests_sent (snd (verify "tokenK3" cold)) = S (S (requests_sent cold))
  /\ requests_sent (snd (verify "tokenA" cold)) = S (requests_sent cold)
  /\ requests_sent (snd (verify "tokenA" (refreshed cold)))
     = requests_sent (refreshed cold)
  /\ requests_sent (snd (verify "tokenK3" (refreshed cold)))
     = S (requests_sent (refreshed cold)).
Proof.
  split; [vm_compute; reflexivity|].
  pose proof (requests_per_verification header_of decode provider
                "tokenK3" (rs256 (Some "k3"%string)) cold eq_refl) as H3.
  pose proof (requests_per_verification header_of decode provider
                "tokenA" (rs256 (Some "k1"%string)) cold eq_refl) as HA.
  pose proof (requests_per_verification header_of decode provider
                "tokenA" (rs256 (Some "k1"%string)) (refreshed cold) eq_refl) as HA'.
  pose proof (requests_per_verification header_of decode provider
                "tokenK3" (rs256 (Some "k3"%string)) (refreshed cold) eq_refl) as H3'.
  cbv zeta in H3, HA, HA', H3'.
  destruct H3 as (_ & _ & H3 & _). destruct HA as (_ & _ & HA & _).
  destruct HA' as (HA' & _). destruct H3' as (_ & H3' & _).
  split_and!.
  - apply (H3 (refreshed cold) (key_set [k1; k2])); vm_compute; reflexivity.
  - apply (HA (refreshed cold) (key_set [k1; k2])); try (vm_compute; reflexivity).
    vm_compute. by eexists.
  - apply (HA' (key_set [k1; k2])); [reflexivity|]. vm_compute. by eexists.
  - apply (H3' (key_set [k1; k2])); [reflexivity| |vm_compute; reflexivity].
    intros Heq. apply (f_equal (fun d : gmap pykey nat => d !! Some "k1"%string)) in Heq.
    vm_compute in Heq. discriminate.
Defined.

(** The service as constructed, a token that names [k3], a provider that
    publishes [{k1, k2}]: the identifier is not cached, the outcome is
    [None], and two requests were sent to reach it. *)
Lemma cold_unknown_kid_sends_two_requests :
  header_of "tokenK3" = Ok (rs256 (Some "k3"%string))
  /\ _public_keys (keycloak_auth cold) = None
  /\ fst (verify "tokenK3" cold) = Ok None
  /\ requests_sent cold = 0%nat
  /\ requests_sent (snd (verify "tokenK3" cold)) = 2%nat
  /\ requests_sent (snd (verify "tokenK3" cold)) <> S (requests_sent cold).
Proof. split_and!; try (vm_compute; reflexivity). vm_compute. discriminate. Qed.

(** ** C4 *)

(** [k3] is cached and the token signed with it is valid; the provider has
    withdrawn [k3]; after the refresh the same token is refused. *)
Lemma refresh_replaces_key_set_witness :
  holds "k3" (_public_keys (keycloak_auth stale)) = Some 13%nat
  /\ fst (verify "tokenK3" stale) = Ok (Some user42)
  /\ _load_public_keys provider stale = (Ok tt, refreshed stale)
  /\ holds "k3" (_public_keys (keycloak_auth (refreshed stale))) = None
  /\ fst (verify "tokenK3" (refreshed stale)) = Ok None.
Proof.
  split; [vm_compute; reflexivity|]. split; [vm_compute; reflexivity|].
  pose proof (refresh_replaces_key_set header_of decode provider stale [k1; k2]
                "tokenK3" (rs256 (Some "k3"%string)) eq_refl eq_refl eq_refl
                (provider_withdrew_k3 stale)) as H.
  cbv zeta in H. destruct H as (Hload & _ & _ & _ & Hgone & Hrefused).
  split; [exact Hload|]. split; [|exact Hrefused].
  vm_compute. reflexivity.
Defined.

(** ** The 401 *)

Lemma verification_failure_is_401_witness :
  get_current_user header_of decode provider "tokenOtherAudience" cold
  = (Raise (HTTPException 401 "Invalid or expired token"
              (Some [("WWW-Authenticate", "Bearer")]%string)),
     refreshed cold).
Proof.
  apply (verification_failure_is_401 header_of decode provider
           "tokenOtherAudience" cold (refreshed cold)).
  vm_compute. reflexivity.
Defined.

(** A string that is no token at all gets the same answer. *)
Example garbage_is_401 :
  fst (get_current_user header_of decode provider "garbage" cold)
  = fst (get_current_user header_of decode provider "tokenOtherAudience" cold).
Proof. vm_compute. reflexivity. Qed.

(** ** C6 *)


(** ** C7 *)

Lemma missing_kid_is_looked_up_witness :
  fst (verify "tokenNoKid" warm) = Ok None
  /\ requests_sent (snd (verify "tokenNoKid" warm)) = S (requests_sent warm).
Proof.
  apply (missing_kid_is_looked_up header_of decode provider "tokenNoKid"
           (rs256 None) warm).
  - vm_compute. reflexivity.
  - vm_compute. reflexivity.
  - intros d [= <-]. vm_compute. reflexivity.
  - apply provider_has_no_null_kid.
Defined.

(** A token without [kid], a dict that holds [k1]: a request is sent and
    the dict is replaced before the token is refused. *)
Lemma missing_kid_triggers_refresh :
  header_of "tokenNoKid" = Ok (rs256 None)
  /\ rs256 None !! "kid"%string = None
  /\ requests_sent warm = 0%nat
  /\ fst (verify "tokenNoKid" warm) = Ok None
  /\ requests_sent (snd (verify "tokenNoKid" warm)) = 1%nat
  /\ holds "k2" (_public_keys (keycloak_auth warm)) = None
  /\ holds "k2" (_public_keys (keycloak_auth (snd (verify "tokenNoKid" warm))))
     = Some 12%nat
  /\ snd (verify "tokenNoKid" warm) <> warm.
Proof.
  split_and!; try (vm_compute; reflexivity).
  intros Heq. apply (f_equal requests_sent) in Heq.
  vm_compute in Heq. discriminate.
Qed.

(** ** One refresh and its readers *)

Lemma preempted_refresh_exposes_prefix_witness :
  _public_keys (keycloak_auth (snd (_load_public_keys_preempted provider 1 stale)))
  = Some (key_set (take 1 [k1; k2]))
  /\ _load_public_keys_preempted provider 2 stale = _load_public_keys provider stale.
Proof.
  pose proof (preempted_refresh_exposes_prefix provider stale [k1; k2] 1 eq_refl)
    as (Hseen & _ & _).
  pose proof (preempted_refresh_exposes_prefix provider stale [k1; k2] 2 eq_refl)
    as (_ & _ & Hdone).
  split; [exact Hseen|]. apply Hdone. simpl. lia.
Defined.

(** The dict held [k3]; the provider publishes [{k1, k2}].  A reader that
    runs after the first iteration of the loop finds [k1] and neither [k2]
    nor [k3]: that is neither the old mapping nor the new one. *)
Lemma refresh_is_not_atomic :
  let old := _public_keys (keycloak_auth stale) in
  let new := _public_keys (keycloak_auth (snd (_load_public_keys provider stale))) in
  let seen :=
    _public_keys (keycloak_auth (snd (_load_public_keys_preempted provider 1 stale))) in
  (holds "k1" old = None /\ holds "k2" old = None /\ holds "k3" old = Some 13%nat)
  /\ (holds "k1" new = Some 11%nat /\ holds "k2" new = Some 12%nat
      /\ holds "k3" new = None)
  /\ (holds "k1" seen = Some 11%nat /\ holds "k2" seen = None
      /\ holds "k3" seen = None)
  /\ seen <> old /\ seen <> new.
Proof.
  split_and!; try (vm_compute; reflexivity).
  - intros Heq. apply (f_equal (holds "k1")) in Heq. vm_compute in Heq. discriminate.
  - intros Heq. apply (f_equal (holds "k2")) in Heq. vm_compute in Heq. discriminate.
Qed.

(** ** C9 *)

Lemma empty_payload_is_401_witness :
  not_payload (Some ∅) = true
  /\ get_current_user header_of decode_nothing provider "tokenA" cold
     = (Raise (HTTPException 401 "Invalid or expired token"
                 (Some [("WWW-Authenticate", "Bearer")]%string)),
        refreshed cold).
Proof.
  apply (empty_payload_is_401 header_of decode_nothing provider "tokenA" cold
           (refreshed cold)).
  vm_compute. reflexivity.
Defined.

(** ** C10 *)

Lemma missing_roles_is_403_witness :
  user_roles guest = Ok (PList [])
  /\ require_role "admin" guest
     = Raise (HTTPException 403 "Required role 'admin' not found" None).
Proof.
  apply (missing_roles_is_403 "admin" guest). left. vm_compute. reflexivity.
Defined.

(** A [realm_access] that is a dict without [roles] is treated alike. *)
Example realm_access_without_roles :
  require_role "admin" (<[ "realm_access"%string := PDict ∅ ]> guest)
  = Raise (HTTPException 403 "Required role 'admin' not found" None).
Proof. vm_compute. reflexivity. Qed.

(** ** Further properties, run *)

Lemma malformed_token_cost_witness :
  verify "garbage" (refreshed cold) = (Ok None, refreshed cold)
  /\ requests_sent (snd (verify "garbage" cold)) = S (requests_sent cold).
Proof.
  pose proof (malformed_token_cost header_of decode provider "garbage"
                (refreshed cold) eq_refl) as [Hfull _].
  pose proof (malformed_token_cost header_of decode provider "garbage"
                cold eq_refl) as [_ Hempty].
  split; [apply Hfull; vm_compute; reflexivity|].
  apply Hempty. reflexivity.
Defined.

Lemma unreachable_provider_is_not_401_witness :
  exists e,
    (e = ConnectionError \/ e = JSONDecodeError \/ exists st, e = HTTPError st)
    /\ (forall credentials,
          get_current_user header_of decode provider_down credentials cold
          = (Raise e, one_more_request cold))
    /\ cache_empty (one_more_request cold) = true.
Proof.
  apply (unreachable_provider_is_not_401 header_of decode provider_down cold);
    reflexivity.
Defined.

Lemma refresh_stops_at_first_malformed_key_witness :
  exists e,
    (e = InvalidKeyError \/ e = KeyError "kid")
    /\ _load_public_keys provider_with_broken_entry stale
       = (Raise e, with_public_keys (key_set [k1]) (one_more_request stale)).
Proof.
  apply (refresh_stops_at_first_malformed_key provider_with_broken_entry stale
           [k1] k_without_kid [k2]); reflexivity.
Defined.

Lemma last_listed_key_wins_witness :
  key_set ([k1] ++ k1_renewed :: [k2]) !! Some "k1"%string = Some 21%nat.
Proof.
  apply (last_listed_key_wins [k1] k1_renewed [k2]); try reflexivity.
  vm_compute. intros Hin. apply list_elem_of_singleton in Hin. discriminate.
Defined.

Lemma refresh_is_idempotent_witness :
  _public_keys (keycloak_auth
     (snd (_load_public_keys provider (snd (_load_public_keys provider stale)))))
  = _public_keys (keycloak_auth (snd (_load_public_keys provider stale)))
  /\ fst (_load_public_keys provider (snd (_load_public_keys provider stale)))
     = fst (_load_public_keys provider stale).
Proof.
  apply (refresh_is_idempotent provider stale [k1; k2]); reflexivity.
Defined.

Lemma cached_key_token_accepted_witness :
  verify "tokenA" (refreshed cold) = (Ok (Some user42), refreshed cold).
Proof.
  apply (cached_key_token_accepted header_of decode provider "tokenA"
           (rs256 (Some "k1"%string)) (refreshed cold) (key_set [k1; k2]) 11%nat);
    vm_compute; reflexivity.
Defined.

Lemma rotated_in_key_token_accepted_witness :
  verify "tokenA" stale = (Ok (Some user42), refreshed stale).
Proof.
  apply (rotated_in_key_token_accepted header_of decode provider "tokenA"
           (rs256 (Some "k1"%string)) stale {[ Some "k3"%string := 13%nat ]}
           [k1; k2] 11%nat); try (vm_compute; reflexivity).
  intros Heq. apply (f_equal (fun d : gmap pykey nat => d !! Some "k3"%string)) in Heq.
  vm_compute in Heq. discriminate.
Defined.

Lemma get_current_user_returns_verified_payload_witness :
  verify "tokenA" cold = (Ok (Some user42), refreshed cold) /\ user42 <> ∅.
Proof.
  apply (get_current_user_returns_verified_payload header_of decode provider
           "tokenA" cold user42 (refreshed cold)).
  vm_compute. reflexivity.
Defined.

Lemma role_gate_sound_witness :
  verify "tokenA" cold = (Ok (Some user42), refreshed cold)
  /\ user42 <> ∅
  /\ exists roles,
       user_roles user42 = Ok roles
       /\ py_in_str "api_user" roles = Ok true
       /\ (forall l, roles = PList l -> PStr "api_user" ∈ l).
Proof.
  apply (role_gate_sound header_of decode provider "api_user" "tokenA" cold
           user42 (refreshed cold)).
  vm_compute. reflexivity.
Defined.

Lemma get_model_authenticates_first_witness :
  route_get_model header_of decode provider "model_1" "tokenOtherAudience" cold
  = route_get_model header_of decode provider "model_9" "tokenOtherAudience" cold.
Proof.
  pose proof (get_model_authenticates_first header_of decode provider
                "model_1" "tokenOtherAudience" cold) as [H1 _].
  pose proof (get_model_authenticates_first header_of decode provider
                "model_9" "tokenOtherAudience" cold) as [H9 _].
  rewrite (H1 (refreshed cold)) by (vm_compute; reflexivity).
  rewrite (H9 (refreshed cold)) by (vm_compute; reflexivity).
  reflexivity.
Defined.

Lemma role_routes_sound_witness :
  exists user roles,
    verify "tokenA" cold = (Ok (Some user), refreshed cold)
    /\ user_roles user = Ok roles
    /\ py_in_str "api_user" roles = Ok true
    /\ create_model (PStr "payload") user42 = create_model (PStr "payload") user.
Proof.
  pose proof (role_routes_sound header_of decode provider "tokenA" cold
                (create_model (PStr "payload") user42) (refreshed cold)) as [_ H].
  apply (H (PStr "payload")). vm_compute. reflexivity.
Defined.

Lemma string_roles_match_substrings_witness :
  require_role "admin" administrator = Ok administrator.
Proof.
  apply (string_roles_match_substrings "admin" administrator "administrator").
  - vm_compute. reflexivity.
  - by exists ""%string, "istrator"%string.
Defined.

Lemma require_role_outcomes_witness :
  require_role "admin" (<[ "realm_access"%string := PStr "admin" ]> guest)
  = Raise AttributeError.
Proof.
  pose proof (require_role_outcomes "admin"
                (<[ "realm_access"%string := PStr "admin" ]> guest))
    as (_ & _ & H & _).
  apply (H (PStr "admin")); [vm_compute; reflexivity|done].
Defined.

Lemma verifier_only_contacts_certs_url_witness :
  verify_token header_of decode provider "tokenA" cold
  = verify_token header_of decode provider_at_certs_url_only "tokenA" cold.
Proof.
  apply (verifier_only_contacts_certs_url header_of decode provider
           provider_at_certs_url_only "tokenA" cold).
  intros n. reflexivity.
Defined.

Lemma init_arguments_witness :
  __init__ (PublicKey := nat) environ join
    (Some "http://idp") (Some "prod") (Some "api") (Some "s3cret")
  = __init__ ∅ join
      (Some "http://idp") (Some "prod") (Some "api") (Some "s3cret").
Proof.
  pose proof (init_arguments (PublicKey := nat) join environ)
    as (_ & _ & _ & _ & H & _).
  apply H; discriminate.
Defined.

Lemma token_responses_come_from_the_provider_witness :
  exists data st,
    token_endpoint (token_url client) data = Replied st (Some token_response)
    /\ is_error_status st = false
    /\ data !! "grant_type"%string = Some (PStr "client_credentials")
    /\ data !! "client_id"%string = Some (PStr (client_id (verifier client)))
    /\ data !! "client_secret"%string = Some (py_opt (client_secret client)).
Proof.
  pose proof (token_responses_come_from_the_provider token_endpoint
                userinfo_endpoint client token_response) as [H _].
  apply H. vm_compute. reflexivity.
Defined.

Lemma token_endpoint_errors_are_raised_witness :
  get_client_credentials_token token_endpoint_unavailable client
  = Raise (HTTPError 503)
  /\ (forall code redirect_uri,
        exchange_authorization_code token_endpoint_unavailable client
          code redirect_uri
        = Raise (HTTPError 503))
  /\ (forall token,
        refresh_token token_endpoint_unavailable client token
        = Raise (HTTPError 503)).
Proof.
  apply (token_endpoint_errors_are_raised token_endpoint_unavailable client 503
           (Some token_response)); [reflexivity|].
  intros data. reflexivity.
Defined.

(** The client built in the scenario: the realm comes from the
    environment, the rest from the defaults, and the addresses follow. *)
Example client_addresses :
  realm client = "staging"%string
  /\ token_url client
     = "http://localhost:8080/realms/staging/protocol/openid-connect/token"%string
  /\ certs_url (verifier client)
     = "http://localhost:8080/realms/staging/protocol/openid-connect/certs"%string
  /\ client_secret client = Some "s3cret"%string.
Proof. vm_compute. done. Qed.

(** ** C1, the expiry *)

(** A token without [exp], signed with the cached key [k1] for the right
    audience and issuer, is accepted in the year 2100; the token with
    [exp = 2000] is refused then. *)
Lemma token_without_exp_is_accepted :
  let w := in_2100 (refreshed cold) in
  header_of "tokenNoExp" = Ok (rs256 (Some "k1"%string))
  /\ unlimited !! "exp"%string = None
  /\ clock w = 4102444800
  /\ verify "tokenNoExp" w = (Ok (Some unlimited), w)
  /\ verify "tokenA" w = (Ok None, w).
Proof. split_and!; vm_compute; reflexivity. Qed.

(** An [exp] that is a numeric string is read as that number. *)
Example numeric_string_exp :
  exp_claim {[ "exp"%string := PStr "2000" ]} = Ok (Some 2000)
  /\ expired {[ "exp"%string := PStr "2000" ]} 1000 = false
  /\ expired {[ "exp"%string := PStr "2000" ]} 2000 = true.
Proof. split_and!; vm_compute; reflexivity. Qed.

(** [int] on strings: blanks around, a sign, underscores between digits. *)
Example int_of_str_examples :
  int_of_str " 2_000 " = Some 2000
  /\ int_of_str "-7" = Some (-7)
  /\ int_of_str "+007" = Some 7
  /\ int_of_str "" = None
  /\ int_of_str " " = None
  /\ int_of_str "-" = None
  /\ int_of_str "- 1" = None
  /\ int_of_str "1 2" = None
  /\ int_of_str "_1" = None
  /\ int_of_str "1_" = None
  /\ int_of_str "1__0" = None
  /\ int_of_str "12a" = None
  /\ int_of_str "1.5" = None.
Proof. split_and!; vm_compute; reflexivity. Qed.

(** ** C5, the failed refresh *)



(** ** C8, overlapping refreshes *)

Lemma overlapping_refreshes_expose_fetched_keys_witness :
  _public_keys (keycloak_auth
    (snd (run provider (replicate (2 + 1) 0%nat) [Starting] stale)))
  = Some (key_set (take 1 [k1; k2])).
Proof.
  pose proof (overlapping_refreshes_expose_fetched_keys provider [] 0 stale)
    as [_ H].
  apply (H 1%nat [k1; k2]). reflexivity.
Defined.

(** Two refreshes overlap: the first fetches [{k1, k2}] and is switched
    out after storing [k1]; the second fetches [{k3}], resets the dict and
    stores [k3]; the first goes on and stores [k2] into the dict it finds.
    The dict then holds [k2] and [k3], keys of two fetches, and neither
    the old [k0] nor [k1]. *)
Example overlapping_refreshes_merge :
  let w' := snd (run provider_rotating [0; 0; 0; 1; 1; 1; 0]%nat
                     [Starting; Starting] outdated) in
  let seen := _public_keys (keycloak_auth w') in
  holds "k0" (_public_keys (keycloak_auth outdated)) = Some 10%nat
  /\ holds "k0" seen = None
  /\ holds "k1" seen = None
  /\ holds "k2" seen = Some 12%nat
  /\ holds "k3" seen = Some 13%nat.
Proof. split_and!; vm_compute; reflexivity. Qed.
